(** * fit-BEL: the [Spectrum] normalisation pipeline of [Spectrum.py]

    A shallow embedding of [Spectrum.py].  Samples are IEEE-754 binary64
    numbers (Rocq's primitive [float], the dtype numpy gives the columns), so
    that NaN, the two infinities and the two zeros behave as they do in the
    program.  A Python exception is a [Raise] result; the module-level
    configuration object [config] is threaded through as an explicit store.

    The numerical libraries the program calls into ([np.var], [10 ** x],
    [extinction.fitzpatrick99], [extinction.remove]) and the file readers
    ([pandas.read_csv], [astropy.table.Table.read]) are not part of the
    repository: they are the fields of the [Externals] interface. *)

From Stdlib Require Import String Ascii Bool Arith ZArith Lia List Sorted.
From Stdlib Require Import Floats.
Import ListNotations.

Set Implicit Arguments.

(** ** Exceptions *)

Inductive exn : Type :=
| TypeError
| AttributeError
| ValueError
| KeyError
| IndexError
| FileNotFoundError.

Inductive result (A : Type) : Type :=
| Ok (a : A)
| Raise (e : exn).

Arguments Ok {A} a.
Arguments Raise {A} e.

Definition bind {A B : Type} (r : result A) (k : A -> result B) : result B :=
  match r with
  | Ok a => k a
  | Raise e => Raise e
  end.

Declare Scope py_scope.
Delimit Scope py_scope with py.
Notation "x <- r ;; k" := (bind r (fun x => k))
  (at level 61, r at next level, right associativity) : py_scope.

(** ** Arrays

    The program holds its samples in two kinds of containers: numpy
    [ndarray]s (what [Series.values], [np.full] and arithmetic on an ndarray
    give) and pandas [Series] (what [DataFrame.__getitem__] gives).  They
    agree on elementwise arithmetic and on boolean indexing, and differ in
    their attributes: only a [Series] has [to_numpy]. *)

Inductive array : Type :=
| ndarray (v : list float)
| Series (v : list float).

Definition values (a : array) : list float :=
  match a with
  | ndarray v => v
  | Series v => v
  end.

Definition len (a : array) : nat := length (values a).

(** The container kind is kept by every operation that rebuilds the data. *)
Definition rebuild (f : list float -> list float) (a : array) : array :=
  match a with
  | ndarray v => ndarray (f v)
  | Series v => Series (f v)
  end.

(** [a.values] *)
Definition dot_values (a : array) : array := ndarray (values a).

(** [a.to_numpy(dtype=np.double)]: an ndarray has no such attribute. *)
Definition to_numpy (a : array) : result (list float) :=
  match a with
  | ndarray _ => Raise AttributeError
  | Series v => Ok v
  end.

(** [a / k], [a * k] and [b ** a] with a scalar, elementwise. *)
Definition div_scalar (a : array) (k : float) : array :=
  rebuild (map (fun x => (x / k)%float)) a.

Definition mul_scalar (a : array) (k : float) : array :=
  rebuild (map (fun x => (x * k)%float)) a.

(** [a >= k], [a <= k], [a != k]: boolean arrays. *)
Definition ge_scalar (a : array) (k : float) : list bool :=
  map (fun x => (k <=? x)%float) (values a).

Definition le_scalar (a : array) (k : float) : list bool :=
  map (fun x => (x <=? k)%float) (values a).

Definition ne_scalar (a : array) (k : float) : list bool :=
  map (fun x => negb (x =? k)%float) (values a).

(** [m1 & m2] on two boolean arrays of one length. *)
Definition mask_and (m1 m2 : list bool) : list bool :=
  map (fun p => fst p && snd p) (combine m1 m2).

(** Selection of the entries of [a] whose mask entry is [True]. *)
Fixpoint compress {A : Type} (mask : list bool) (a : list A) : list A :=
  match mask, a with
  | m :: ms, x :: xs => if m then x :: compress ms xs else compress ms xs
  | _, _ => []
  end.

(** [a[mask]] with a boolean mask: numpy refuses a mask of another length. *)
Definition getitem_mask (a : array) (mask : list bool) : result array :=
  if Nat.eqb (length mask) (len a)
  then Ok (rebuild (compress mask) a)
  else Raise IndexError.

(** [np.maximum]: [(in1 >= in2 || isnan(in1)) ? in1 : in2]. *)
Definition np_maximum (x y : float) : float :=
  if (y <=? x)%float || is_nan x then x else y.

(** [np.max]: a reduction with no identity, so an empty array is refused. *)
Definition np_max (a : array) : result float :=
  match values a with
  | [] => Raise ValueError
  | x :: xs => Ok (fold_left np_maximum xs x)
  end.

(** [np.full(n, x)] *)
Definition np_full (n : nat) (x : float) : array := ndarray (repeat x n).

(** ** Strings *)

(** [s.endswith(suffix)] *)
Definition endswith (s suffix : string) : bool :=
  let n := String.length s in
  let m := String.length suffix in
  (m <=? n) && String.eqb (substring (n - m) m s) suffix.

(** [s.split(c)] for a one-character separator: never empty. *)
Fixpoint split (c : ascii) (s : string) : list string :=
  match s with
  | EmptyString => [EmptyString]
  | String a s' =>
      if Ascii.eqb a c then EmptyString :: split c s'
      else match split c s' with
           | [] => [String a EmptyString]
           | w :: ws => String a w :: ws
           end
  end.

(** [c.lower()] on the ASCII letters. *)
Definition lower_ascii (a : ascii) : ascii :=
  let n := nat_of_ascii a in
  if (65 <=? n) && (n <=? 90) then ascii_of_nat (n + 32) else a.

Fixpoint lower (s : string) : string :=
  match s with
  | EmptyString => EmptyString
  | String a s' => String (lower_ascii a) (lower s')
  end.

(** ** Data frames

    A pandas [DataFrame] is a rectangular table: a list of column labels and
    the rows under them.  A column is read off the rows, so all the columns
    of one frame have the frame's number of rows. *)

Record DataFrame : Type := mkDataFrame {
  columns : list string;
  rows : list (list float)
}.

Fixpoint index_of (key : string) (labels : list string) : option nat :=
  match labels with
  | [] => None
  | l :: ls =>
      if String.eqb key l then Some 0
      else option_map S (index_of key ls)
  end.

(** [key in df.columns] *)
Definition has_column (df : DataFrame) (key : string) : bool :=
  existsb (String.eqb key) (columns df).

(** [df[key]]: the column as a [Series], [KeyError] when there is none.
    This is the read of a label the frame carries once; under a repeated
    label pandas hands back a frame instead of a column. *)
Definition getitem (df : DataFrame) (key : string) : result array :=
  match index_of key (columns df) with
  | Some j => Ok (Series (map (fun r => nth j r nan) (rows df)))
  | None => Raise KeyError
  end.

(** [df.columns = labels]: the number of labels must be the frame's. *)
Definition set_columns (df : DataFrame) (labels : list string)
  : result DataFrame :=
  if Nat.eqb (length labels) (length (columns df))
  then Ok (mkDataFrame labels (rows df))
  else Raise ValueError.

(** [df.rename(columns={old: new}, inplace=True)] *)
Definition rename_column (old new : string) (df : DataFrame) : DataFrame :=
  mkDataFrame
    (map (fun c => if String.eqb c old then new else c) (columns df))
    (rows df).

(** ** The libraries behind the program *)

Class Externals : Type := {
  (** [np.power], the [**] of an ndarray *)
  np_power : float -> float -> float;
  (** [np.var]: it warns on an empty array and returns a number all the same *)
  np_var : list float -> float;
  (** [extinction.fitzpatrick99(wave, a_v, r_v)] *)
  fp99 : list float -> float -> float -> result (list float);
  (** [extinction.remove(extinction, flux)] *)
  ext_remove : list float -> array -> result array;
  (** [pd.read_csv(path, sep=, skiprows=, header=None)] *)
  pd_read_csv : string -> string -> nat -> result DataFrame;
  (** [Table.read(path, hdu=1).to_pandas()] *)
  Table_read : string -> result DataFrame
}.

(** ** The module [config]

    Modelled from the spec: [config.IVAR_INTERVALS] and
    [config.TRIM_INTERVALS], the two configured wavelength intervals
    [[low, high]] (numpy arrays, since the program scales one by a number);
    the module itself is not among the sources. *)

Record Config : Type := mkConfig {
  IVAR_INTERVALS : float * float;
  TRIM_INTERVALS : float * float
}.

Definition scale_interval (i : float * float) (k : float) : float * float :=
  ((fst i * k)%float, (snd i * k)%float).

Definition set_IVAR_INTERVALS (cfg : Config) (i : float * float) : Config :=
  mkConfig i (TRIM_INTERVALS cfg).

(** ** The class [Spectrum] *)

Record Spectrum : Type := mkSpectrum {
  file_path : string;
  name : string;
  (** what [read_data] returned: a frame, or [None] *)
  data : option DataFrame;
  wavelength : array;
  flux : array;
  redshift : float;
  rest_frame : bool;
  linearize_wavelength : bool;
  a_v_extinction : option float;
  to_rest_frame : bool;
  (** [None] until the constructor assigns the attribute *)
  ivar : option array
}.

Definition set_wavelength (self : Spectrum) (w : array) : Spectrum :=
  mkSpectrum (file_path self) (name self) (data self) w (flux self)
    (redshift self) (rest_frame self) (linearize_wavelength self)
    (a_v_extinction self) (to_rest_frame self) (ivar self).

Definition set_flux (self : Spectrum) (f : array) : Spectrum :=
  mkSpectrum (file_path self) (name self) (data self) (wavelength self) f
    (redshift self) (rest_frame self) (linearize_wavelength self)
    (a_v_extinction self) (to_rest_frame self) (ivar self).

Definition set_ivar (self : Spectrum) (i : array) : Spectrum :=
  mkSpectrum (file_path self) (name self) (data self) (wavelength self)
    (flux self) (redshift self) (rest_frame self) (linearize_wavelength self)
    (a_v_extinction self) (to_rest_frame self) (Some i).

(** [self.ivar]: an attribute that is not there yet is an [AttributeError]. *)
Definition get_ivar (self : Spectrum) : result array :=
  match ivar self with
  | Some i => Ok i
  | None => Raise AttributeError
  end.

Section Program.

Context {ext : Externals}.

Local Open Scope py_scope.

(** *** The loader *)

Definition read_fits (path : string) : result DataFrame :=
  spec_df <- Table_read path ;;
  spec_df <- set_columns spec_df (map lower (columns spec_df)) ;;
  Ok (rename_column "loglam" "lambda" spec_df).

Definition read_txt (path : string) (skiprows : nat) (separator : string)
  : result DataFrame :=
  spec_df <- pd_read_csv path separator skiprows ;;
  set_columns spec_df ["lambda"; "flux"]%string.

(** A path of neither extension falls through both tests: the function
    ends without a [return], which is Python's [None]. *)
Definition read_data (path : string) (skiprows : nat) (separator : string)
  : result (option DataFrame) :=
  if endswith path ".txt" then
    df <- read_txt path skiprows separator ;; Ok (Some df)
  else if endswith path ".fits" then
    df <- read_fits path ;; Ok (Some df)
  else Ok None.

(** [self.data[key]]: [None] is not subscriptable. *)
Definition subscript (d : option DataFrame) (key : string) : result array :=
  match d with
  | Some df => getitem df key
  | None => Raise TypeError
  end.

(** [key in self.data.columns]: [None] has no attribute [columns]. *)
Definition in_columns (d : option DataFrame) (key : string) : result bool :=
  match d with
  | Some df => Ok (has_column df key)
  | None => Raise AttributeError
  end.

(** *** The pipeline stages *)

Definition _linearize_wavelength (self : Spectrum) : result Spectrum :=
  if linearize_wavelength self then
    m <- np_max (wavelength self) ;;
    if (m <? 5)%float
    then Ok (set_wavelength self (rebuild (map (np_power 10)) (wavelength self)))
    else Ok self
  else Ok self.

(** The default of the parameter [r_v_extinction], 3.1 as a binary64. *)
Definition r_v_extinction : float := 0x1.8cccccccccccdp+1%float.

(** The stage returns the corrected flux to its caller and assigns nothing:
    the result is the object as it was, next to the returned value. *)
Definition _correct_extinction (self : Spectrum)
  : result (Spectrum * option array) :=
  match a_v_extinction self with
  | Some a_v =>
      wave <- to_numpy (wavelength self) ;;
      extinction_curve <- fp99 wave a_v r_v_extinction ;;
      corrected <- ext_remove extinction_curve (flux self) ;;
      Ok (self, Some corrected)
  | None => Ok (self, None)
  end.

Definition _to_rest_frame (self : Spectrum) : Spectrum :=
  if to_rest_frame self then
    let self1 :=
      set_wavelength self
        (div_scalar (wavelength self) (1 + redshift self)%float) in
    set_flux self1 (mul_scalar (flux self1) (1 + redshift self1)%float)
  else self.

(** The one stage that touches [config]: it takes the store and gives back
    the store it leaves, also when it raises. *)
Definition _calculate_ivar (self : Spectrum) (cfg : Config)
  : result array * Config :=
  match in_columns (data self) "ivar" with
  | Raise e => (Raise e, cfg)
  | Ok true => (subscript (data self) "ivar", cfg)
  | Ok false =>
    let cfg1 :=
      if negb (rest_frame self)
      then set_IVAR_INTERVALS cfg
             (scale_interval (IVAR_INTERVALS cfg) (1 + redshift self)%float)
      else cfg in
    let mask :=
      mask_and (ge_scalar (wavelength self) (fst (IVAR_INTERVALS cfg1)))
               (le_scalar (wavelength self) (snd (IVAR_INTERVALS cfg1))) in
    (continuum <- getitem_mask (flux self) mask ;;
     let ivar := (1 / np_var (values continuum))%float in
     Ok (np_full (len (wavelength self)) ivar),
     cfg1)
  end.

Definition _trim_data (self : Spectrum) (cfg : Config) : result Spectrum :=
  let mask :=
    mask_and (ge_scalar (wavelength self) (fst (TRIM_INTERVALS cfg)))
             (le_scalar (wavelength self) (snd (TRIM_INTERVALS cfg))) in
  w <- getitem_mask (wavelength self) mask ;;
  let self1 := set_wavelength self w in
  f <- getitem_mask (flux self1) mask ;;
  let self2 := set_flux self1 f in
  i <- get_ivar self2 ;;
  i' <- getitem_mask i mask ;;
  Ok (set_ivar self2 i').

Definition _mask_dead_pixels (self : Spectrum) : result Spectrum :=
  i <- get_ivar self ;;
  let dead_pixel_mask := ne_scalar i 0%float in
  f <- getitem_mask (flux self) dead_pixel_mask ;;
  let self1 := set_flux self f in
  i1 <- get_ivar self1 ;;
  i' <- getitem_mask i1 dead_pixel_mask ;;
  let self2 := set_ivar self1 i' in
  w <- getitem_mask (wavelength self2) dead_pixel_mask ;;
  Ok (set_wavelength self2 w).

(** *** The constructor *)

(** [file_path.split('/')[-1].split('.')[0]] *)
Definition stem (path : string) : string :=
  hd EmptyString (split "." (last (split "/" path) EmptyString)).

(** The object as the assignments of lines 20-29 leave it. *)
Definition load (path : string) (z : float) (a_v : option float)
  (linearize : bool) (skiprows : nat) (separator : string) (to_rest : bool)
  : result Spectrum :=
  d <- read_data path skiprows separator ;;
  lam <- subscript d "lambda" ;;
  flx <- subscript d "flux" ;;
  Ok (mkSpectrum path (stem path) d (dot_values lam) (dot_values flx)
        z to_rest linearize a_v to_rest None).

Definition __init__ (path : string) (z : float) (a_v : option float)
  (linearize : bool) (skiprows : nat) (separator : string) (to_rest : bool)
  (cfg : Config) : result Spectrum * Config :=
  match load path z a_v linearize skiprows separator to_rest with
  | Raise e => (Raise e, cfg)
  | Ok self0 =>
      match _linearize_wavelength self0 with
      | Raise e => (Raise e, cfg)
      | Ok self1 =>
          match _correct_extinction self1 with
          | Raise e => (Raise e, cfg)
          | Ok (self2, _) =>
              let self3 := _to_rest_frame self2 in
              match _calculate_ivar self3 cfg with
              | (Raise e, cfg') => (Raise e, cfg')
              | (Ok i, cfg') => (_mask_dead_pixels (set_ivar self3 i), cfg')
              end
          end
      end
  end.

End Program.

(** ** Reference instances

    Executable stand-ins for the libraries, so that the program can be run
    on concrete tables. *)

Fixpoint float_of_nat (n : nat) : float :=
  match n with
  | O => 0%float
  | S k => (float_of_nat k + 1)%float
  end.

Definition sum_left (l : list float) : float :=
  fold_left PrimFloat.add l 0%float.

(** The two passes of numpy's [_var] with [ddof = 0]: the mean, then the
    mean of the squared deviations (sums taken from left to right). *)
Definition var_two_pass (l : list float) : float :=
  let rcount := float_of_nat (length l) in
  let arrmean := (sum_left l / rcount)%float in
  let x := map (fun a => (a - arrmean)%float) l in
  (sum_left (map (fun a => (a * a)%float) x) / rcount)%float.

Fixpoint pow_nat (b : float) (n : nat) : float :=
  match n with
  | O => 1%float
  | S k => (b * pow_nat b k)%float
  end.

(** A power that is exact on the exponents 0, 1, ..., 7 and gives up (NaN)
    on any other. *)
Definition power_small (b e : float) : float :=
  match find (fun n => (float_of_nat n =? e)%float) (seq 0 8) with
  | Some n => pow_nat b n
  | None => nan
  end.

(** A flat extinction curve of [a_v] magnitudes at every wavelength. *)
Definition flat_curve (wave : list float) (a_v r_v : float)
  : result (list float) :=
  Ok (map (fun _ => a_v) wave).

(** 0.4 as a binary64. *)
Definition two_fifths : float := 0x1.999999999999ap-2%float.

(** [flux * 10 ** (0.4 * extinction)], elementwise. *)
Definition remove_curve (extinction : list float) (flx : array)
  : result array :=
  if Nat.eqb (length extinction) (len flx)
  then Ok (rebuild
             (fun v =>
                map (fun p =>
                       (snd p * power_small 10 (two_fifths * fst p))%float)
                    (combine extinction v))
             flx)
  else Raise ValueError.

(** Files are tables held in memory; a reader finds its table by path. *)
Definition read_from (files : list (string * DataFrame)) (path : string)
  : result DataFrame :=
  match find (fun f => String.eqb path (fst f)) files with
  | Some f => Ok (snd f)
  | None => Raise FileNotFoundError
  end.

Definition reference_externals (files : list (string * DataFrame))
  : Externals := {|
  np_power := power_small;
  np_var := var_two_pass;
  fp99 := flat_curve;
  ext_remove := remove_curve;
  pd_read_csv := fun path _ _ => read_from files path;
  Table_read := read_from files
|}.

(** A table of two columns under the labels [pd.read_csv(..., header=None)]
    gives them. *)
Definition two_columns (lam flx : list float) : DataFrame :=
  mkDataFrame ["0"; "1"]%string (map (fun p => [fst p; snd p]) (combine lam flx)).

Definition sample_files : list (string * DataFrame) :=
  [ ("examples/sample.txt"%string,
     two_columns [1; 2; 3; 4; 5]%float [1; 2; 1; 2; 3]%float);
    ("examples/flat.txt"%string,
     two_columns [1; 2; 3; 4; 5]%float [1; 1; 1; 1; 1]%float);
    ("examples/log.txt"%string,
     two_columns [1; 2; 3]%float [1; 2; 4]%float);
    ("examples/plate.fits"%string,
     mkDataFrame ["LAMBDA"; "FLUX"; "IVAR"]%string
       [ [4000; 10; 2]%float; [4001; 11; 2]%float; [4002; 12; 0]%float;
         [4003; 13; 4]%float; [4004; 14; 4]%float; [4005; 15; 0]%float;
         [4006; 16; 8]%float ]);
    ("examples/table.csv"%string,
     two_columns [1; 2; 3; 4; 5]%float [1; 2; 1; 2; 3]%float) ].

Definition sample_externals : Externals := reference_externals sample_files.

(** A continuum window that covers the sample wavelengths, and one that
    covers none of them. *)
Definition wide_config : Config :=
  mkConfig (0.5, 10)%float (0, 10)%float.

Definition far_config : Config :=
  mkConfig (100, 200)%float (0, 10)%float.

(** The tab character, the default separator. *)
Definition tab : string := String (ascii_of_nat 9) EmptyString.

(** ** What the stages are meant to compute *)

(** The three sequences are index-aligned: one length. *)
Definition aligned (self : Spectrum) : Prop :=
  len (wavelength self) = len (flux self) /\
  forall i, ivar self = Some i -> len i = len (wavelength self).

(** The pixels that are not dead: the indices, in increasing order, at which
    the inverse variance is not equal to zero. *)
Definition alive (iv : list float) : list nat :=
  filter (fun k => negb (nth k iv nan =? 0)%float) (seq 0 (length iv)).

(** The samples of [a] at the given indices, in the order of the indices. *)
Definition take_at (idx : list nat) (a : list float) : list float :=
  map (fun k => nth k a nan) idx.

(** The continuum window a spectrum is measured in: the configured interval,
    rescaled by [1 + redshift] for a spectrum left in the observed frame. *)
Definition window (self : Spectrum) (cfg : Config) : float * float :=
  if rest_frame self then IVAR_INTERVALS cfg
  else scale_interval (IVAR_INTERVALS cfg) (1 + redshift self)%float.

(** The flux samples whose wavelength lies in [[low, high]], bounds
    included. *)
Definition continuum_of (w : float * float) (lam flx : list float)
  : list float :=
  map snd
    (filter (fun p => (fst w <=? fst p)%float && (fst p <=? snd w)%float)
       (combine lam flx)).

(** The positions a boolean mask keeps, in increasing order. *)
Definition kept (mask : list bool) : list nat :=
  filter (fun k => nth k mask false) (seq 0 (length mask)).

(** The store the estimation leaves behind. *)
Definition config_after (self : Spectrum) (cfg : Config) : Config :=
  if rest_frame self then cfg
  else set_IVAR_INTERVALS cfg
         (scale_interval (IVAR_INTERVALS cfg) (1 + redshift self)%float).

(** Between loading and masking the arrays have the table's number of rows. *)
Definition fits_table (self : Spectrum) : Prop :=
  exists df, data self = Some df /\
             len (wavelength self) = length (rows df) /\
             len (flux self) = length (rows df).

Definition same_shape (s s' : Spectrum) : Prop :=
  data s' = data s /\
  redshift s' = redshift s /\
  rest_frame s' = rest_frame s /\
  ivar s' = ivar s /\
  len (wavelength s') = len (wavelength s) /\
  len (flux s') = len (flux s).

(** ** Trimming and complete objects *)

(** The pixels inside an interval: the indices, in increasing order, at
    which the wavelength lies in [[low, high]], bounds included. *)
Definition inside (w : float * float) (lam : list float) : list nat :=
  filter (fun k => (fst w <=? nth k lam nan)%float
                   && (nth k lam nan <=? snd w)%float)
         (seq 0 (length lam)).

(** An object whose ivar is assigned and whose three arrays have one
    length. *)
Definition complete (self : Spectrum) : Prop :=
  exists iv, ivar self = Some iv /\
             len (wavelength self) = len iv /\
             len (flux self) = len iv.

(** The boolean mask [_trim_data] builds. *)
Definition trim_mask (self : Spectrum) (cfg : Config) : list bool :=
  mask_and (ge_scalar (wavelength self) (fst (TRIM_INTERVALS cfg)))
           (le_scalar (wavelength self) (snd (TRIM_INTERVALS cfg))).

(** Membership of an interval, bounds included. *)
Definition in_interval (w : float * float) (x : float) : bool :=
  (fst w <=? x)%float && (x <=? snd w)%float.

(** ** Names and labels *)

(** Whether the character [c] occurs in [s]. *)
Fixpoint contains (c : ascii) (s : string) : bool :=
  match s with
  | EmptyString => false
  | String a s' => Ascii.eqb a c || contains c s'
  end.

(** The label [read_fits] gives a column of the table it read. *)
Definition fits_label (c : string) : string :=
  if String.eqb (lower c) "loglam" then "lambda"%string else lower c.

(** ** Sample objects *)

(** An object as the constructor holds it: both arrays are ndarrays. *)
Definition held (path : string) (df : DataFrame) (lam flx : list float)
  (z : float) (a_v : option float) (linearize to_rest : bool)
  (iv : option array) : Spectrum :=
  mkSpectrum path (stem path) (Some df) (ndarray lam) (ndarray flx)
    z to_rest linearize a_v to_rest iv.

Definition named (lam flx : list float) : DataFrame :=
  mkDataFrame ["lambda"; "flux"]%string (rows (two_columns lam flx)).

Definition sample_frame : DataFrame :=
  named [1; 2; 3; 4; 5]%float [1; 2; 1; 2; 3]%float.

Definition flat_frame : DataFrame :=
  named [1; 2; 3; 4; 5]%float [1; 1; 1; 1; 1]%float.

Definition log_frame : DataFrame := named [1; 2; 3]%float [1; 2; 4]%float.

Definition plate_frame : DataFrame :=
  mkDataFrame ["lambda"; "flux"; "ivar"]%string
    [ [4000; 10; 2]%float; [4001; 11; 2]%float; [4002; 12; 0]%float;
      [4003; 13; 4]%float; [4004; 14; 4]%float; [4005; 15; 0]%float;
      [4006; 16; 8]%float ].


Definition flat_state : Spectrum :=
  held "examples/flat.txt" flat_frame
    [1; 2; 3; 4; 5]%float [1; 1; 1; 1; 1]%float 0%float None false true None.

Definition plate_state : Spectrum :=
  held "examples/plate.fits" plate_frame
    [4000; 4001; 4002; 4003; 4004; 4005; 4006]%float
    [10; 11; 12; 13; 14; 15; 16]%float 0%float None true true None.

(** The object of [log.txt] as loaded, at redshift 3, left in the observed
    frame. *)
Definition log_state : Spectrum :=
  held "examples/log.txt" log_frame
    [1; 2; 3]%float [1; 2; 4]%float 3%float None true false None.

(** The plate with its ivar column attached: pixels 2 and 5 are dead. *)
Definition plate_with_ivar : Spectrum :=
  set_ivar plate_state (Series [2; 2; 0; 4; 4; 0; 8]%float).

(** What the constructor returns for the plate. *)
Definition plate_result : Spectrum :=
  held "examples/plate.fits" plate_frame
    [4000; 4001; 4003; 4004; 4006]%float [10; 11; 13; 14; 16]%float
    0%float None true true (Some (Series [2; 2; 4; 4; 8]%float)).

(** An object whose wavelength is a [Series], with an extinction magnitude
    of 2.5 supplied. *)
Definition reddened_series : Spectrum :=
  mkSpectrum "examples/log.txt" "log" (Some log_frame)
    (Series [1; 2; 3]%float) (ndarray [1; 2; 4]%float)
    0%float true false (Some 2.5%float) true None.

(** The same with the ndarray wavelength the constructor holds. *)
Definition reddened : Spectrum :=
  held "examples/log.txt" log_frame [1; 2; 3]%float [1; 2; 4]%float
    0%float (Some 2.5%float) false true None.

(** An object at redshift 3 in the observed frame. *)
Definition observed : Spectrum :=
  held "examples/log.txt" log_frame [4; 8; 12]%float [1; 2; 4]%float
    3%float None false true None.

(** An object whose ivar has a NaN, a zero and an infinity. *)
Definition odd_weights : Spectrum :=
  set_ivar log_state (ndarray [nan; 0; infinity]%float).

(** A configuration whose trimming interval holds the plate's pixels 1
    to 4. *)
Definition plate_config : Config :=
  mkConfig (0.5, 10)%float (4001, 4004)%float.

(** The plate trimmed to that interval. *)
Definition plate_trimmed : Spectrum :=
  held "examples/plate.fits" plate_frame
    [4001; 4002; 4003; 4004]%float [11; 12; 13; 14]%float
    0%float None true true (Some (Series [2; 0; 4; 4]%float)).

(** An object with a NaN among its wavelengths, delinearization enabled. *)
Definition nan_state : Spectrum :=
  held "examples/log.txt" log_frame [1; nan; 3]%float [1; 2; 4]%float
    0%float None true true None.

(** The plate with an ivar one pixel short. *)
Definition plate_short_ivar : Spectrum :=
  set_ivar plate_state (Series [2; 2; 0; 4; 4; 0]%float).

(** A binary table that has no flux column. *)
Definition fluxless_files : list (string * DataFrame) :=
  [ ("examples/fluxless.fits"%string,
     mkDataFrame ["LOGLAM"; "IVAR"]%string
       [ [3; 2]%float; [3; 2]%float ]) ].

Definition fluxless_externals : Externals :=
  reference_externals fluxless_files.

(** The object of [log.txt] constructed at redshift 3 in the observed frame,
    first under [wide_config] and then under the configuration the first
    construction leaves. *)
Definition log_observed_first : Spectrum :=
  held "examples/log.txt" log_frame [10; 100; 1000]%float [1; 2; 4]%float
    3%float None true false
    (Some (ndarray [infinity; infinity; infinity]%float)).

Definition log_observed_second : Spectrum :=
  held "examples/log.txt" log_frame [10; 100; 1000]%float [1; 2; 4]%float
    3%float None true false (Some (ndarray [4; 4; 4]%float)).

Definition once_rescaled : Config := mkConfig (2, 40)%float (0, 10)%float.

Definition twice_rescaled : Config := mkConfig (8, 160)%float (0, 10)%float.




(** An object whose ivar has a NaN, a zero and a finite weight. *)
Definition mixed_weights : Spectrum :=
  set_ivar log_state (ndarray [nan; 0; 2]%float).

(** A binary table with the two columns and no row. *)
Definition empty_files : list (string * DataFrame) :=
  [ ("examples/empty.fits"%string,
     mkDataFrame ["LOGLAM"; "FLUX"]%string []) ].

Definition empty_externals : Externals := reference_externals empty_files.

(** * Properties *)

(** ** Lists and arrays *)

Lemma values_rebuild (f : list float -> list float) (a : array) :
  values (rebuild f a) = f (values a).
Proof. destruct a; reflexivity. Qed.

Lemma len_rebuild_map (f : float -> float) (a : array) :
  len (rebuild (map f) a) = len a.
Proof. unfold len. rewrite values_rebuild. apply length_map. Qed.

Lemma getitem_mask_Ok (a : array) (mask : list bool) :
  length mask = len a ->
  getitem_mask a mask = Ok (rebuild (compress mask) a).
Proof.
  intros H. unfold getitem_mask. rewrite H, Nat.eqb_refl. reflexivity.
Qed.

Lemma compress_same_length {A B : Type} (mask : list bool)
  (a : list A) (b : list B) :
  length a = length b ->
  length (compress mask a) = length (compress mask b).
Proof.
  revert a b. induction mask as [|m ms IH]; intros [|x xs] [|y ys] H;
    simpl in *; try reflexivity; try discriminate.
  injection H as H. destruct m; simpl; auto.
Qed.

Lemma filter_map_S (p : nat -> bool) (l : list nat) :
  filter p (map S l) = map S (filter (fun k => p (S k)) l).
Proof.
  induction l as [|k l IH]; simpl; [reflexivity|].
  destruct (p (S k)); simpl; rewrite IH; reflexivity.
Qed.

(** Boolean indexing reads the kept positions off the array, in order. *)
Lemma compress_kept {A : Type} (d : A) (mask : list bool) (a : list A) :
  length mask = length a ->
  compress mask a = map (fun k => nth k a d) (kept mask).
Proof.
  unfold kept. revert a.
  induction mask as [|m ms IH]; intros [|x xs] H; simpl in *;
    try reflexivity; try discriminate.
  injection H as H.
  rewrite <- seq_shift, filter_map_S. simpl.
  destruct m; simpl; rewrite map_map; simpl; rewrite (IH xs H); reflexivity.
Qed.

Lemma kept_map {A : Type} (p : A -> bool) (d : A) (l : list A) :
  kept (map p l) = filter (fun k => p (nth k l d)) (seq 0 (length l)).
Proof.
  unfold kept. rewrite length_map. apply filter_ext_in.
  intros k Hk. apply in_seq in Hk.
  rewrite (nth_indep _ false (p d)) by (rewrite length_map; lia).
  apply map_nth.
Qed.

Lemma compress_all_true {A : Type} (mask : list bool) (a : list A) :
  length mask = length a ->
  Forall (fun b => b = true) mask -> compress mask a = a.
Proof.
  revert a. induction mask as [|m ms IH]; intros [|x xs] H F; simpl in *;
    try reflexivity; try discriminate.
  injection H as H. inversion F; subst. f_equal. auto.
Qed.

Lemma mask_and_map {A : Type} (p q : A -> bool) (l : list A) :
  mask_and (map p l) (map q l) = map (fun x => p x && q x) l.
Proof.
  unfold mask_and. induction l as [|x l IH]; simpl; [reflexivity|].
  rewrite IH. reflexivity.
Qed.

Lemma compress_map_filter {A B : Type} (p : A -> bool)
  (k : list A) (a : list B) :
  compress (map p k) a = map snd (filter (fun q => p (fst q)) (combine k a)).
Proof.
  revert a. induction k as [|x k IH]; intros [|y a]; simpl; try reflexivity.
  destruct (p x); simpl; rewrite IH; reflexivity.
Qed.

(** ** Comparisons of binary64 numbers *)

Lemma SFeqb_irrefl_nan (s : spec_float) : SFeqb s s = false -> s = S754_nan.
Proof.
  unfold SFeqb.
  destruct s as [b | b | | b m e]; simpl;
    try (destruct b; discriminate); try reflexivity.
  rewrite Z.compare_refl, Pos.compare_cont_refl. destruct b; discriminate.
Qed.

(** NaN is unequal to every number. *)
Lemma nan_ne (x k : float) : is_nan x = true -> (x =? k)%float = false.
Proof.
  unfold is_nan. rewrite !eqb_spec. intros H.
  apply negb_true_iff, SFeqb_irrefl_nan in H. rewrite H. reflexivity.
Qed.

Lemma infinity_ne_zero (x : float) :
  is_infinity x = true -> (x =? 0)%float = false.
Proof.
  unfold is_infinity. rewrite !eqb_spec, abs_spec.
  destruct (Prim2SF x) as [b | b | | b m e]; vm_compute; try discriminate;
    destruct b; try discriminate; reflexivity.
Qed.

(** Only the two zeros compare equal to zero. *)
Lemma eqb_zero_inv (x : float) :
  (x =? 0)%float = true -> x = 0%float \/ x = (-0)%float.
Proof.
  rewrite eqb_spec. intros H.
  assert (E : Prim2SF x = S754_zero false \/ Prim2SF x = S754_zero true).
  { destruct (Prim2SF x) as [b | b | | b m e]; vm_compute in H;
      try discriminate; destruct b; try discriminate; auto. }
  destruct E as [E | E]; [left | right];
    apply Prim2SF_inj; rewrite E; reflexivity.
Qed.

Lemma non_finite_ne_zero (x : float) :
  is_finite x = false -> negb (x =? 0)%float = true.
Proof.
  unfold is_finite. intros H.
  apply negb_false_iff, orb_true_iff in H. apply negb_true_iff.
  destruct H as [H | H]; [apply nan_ne | apply infinity_ne_zero]; exact H.
Qed.

Lemma SFcompare_Lt_Gt (a b : spec_float) :
  SFcompare a b = Some Lt -> SFcompare b a = Some Gt.
Proof.
  destruct a as [sa | sa | | sa ma ea], b as [sb | sb | | sb mb eb]; simpl;
    try discriminate;
    try (destruct sa; try destruct sb; simpl; congruence).
  destruct sa, sb; simpl; try congruence;
    rewrite (Z.compare_antisym ea eb);
    destruct (Z.compare ea eb); simpl; try congruence;
    pose proof (ZC4 mb ma) as A;
    change (Pos.compare_cont Eq mb ma) with (PosDef.Pos.compare_cont Eq mb ma) in A;
    change (Pos.compare_cont Eq ma mb) with (PosDef.Pos.compare_cont Eq ma mb) in A;
    rewrite A; destruct (PosDef.Pos.compare_cont Eq ma mb); simpl; congruence.
Qed.

(** [x < y] and [y <= x] exclude each other. *)
Lemma ltb_leb_false (x y : float) :
  (x <? y)%float = true -> (y <=? x)%float = false.
Proof.
  rewrite ltb_spec, leb_spec. unfold SFltb, SFleb.
  destruct (SFcompare (Prim2SF x) (Prim2SF y)) as [[| |]|] eqn:E;
    try discriminate.
  intros _. rewrite (SFcompare_Lt_Gt _ _ E). reflexivity.
Qed.

(** [<=] on binary64 is a total preorder away from NaN. *)
Lemma SFleb_trans (a b c : spec_float) :
  SFleb a b = true -> SFleb b c = true -> SFleb a c = true.
Proof.
  unfold SFleb.
  destruct a as [sa | sa | | sa ma ea], b as [sb | sb | | sb mb eb],
           c as [sc | sc | | sc mc ec]; simpl;
    try discriminate; try reflexivity;
    try (destruct sa; try destruct sb; try destruct sc; simpl;
         try discriminate; reflexivity).
  change (PosDef.Pos.compare_cont Eq ma mb) with (Pos.compare ma mb).
  change (PosDef.Pos.compare_cont Eq mb mc) with (Pos.compare mb mc).
  change (PosDef.Pos.compare_cont Eq ma mc) with (Pos.compare ma mc).
  destruct sa, sb, sc; simpl; try discriminate; try reflexivity;
    destruct (Z.compare_spec ea eb), (Z.compare_spec eb ec),
             (Z.compare_spec ea ec);
    try lia; simpl; try discriminate; try reflexivity;
    destruct (Pos.compare_spec ma mb), (Pos.compare_spec mb mc),
             (Pos.compare_spec ma mc);
    simpl; try discriminate; try reflexivity; lia.
Qed.

Lemma SFleb_refl (a : spec_float) : a <> S754_nan -> SFleb a a = true.
Proof.
  unfold SFleb. destruct a as [s | s | | s m e]; simpl; try congruence;
    try (destruct s; reflexivity).
  rewrite Z.compare_refl, Pos.compare_cont_refl. destruct s; reflexivity.
Qed.

Lemma SFleb_total (a b : spec_float) :
  a <> S754_nan -> b <> S754_nan -> SFleb a b = false -> SFleb b a = true.
Proof.
  unfold SFleb.
  destruct a as [sa | sa | | sa ma ea], b as [sb | sb | | sb mb eb]; simpl;
    try congruence;
    try (destruct sa; try destruct sb; simpl; congruence).
  change (PosDef.Pos.compare_cont Eq ma mb) with (Pos.compare ma mb).
  change (PosDef.Pos.compare_cont Eq mb ma) with (Pos.compare mb ma).
  intros _ _.
  destruct sa, sb; simpl; try discriminate; try reflexivity;
    destruct (Z.compare_spec ea eb), (Z.compare_spec eb ea);
    try lia; simpl; try discriminate; try reflexivity;
    destruct (Pos.compare_spec ma mb), (Pos.compare_spec mb ma);
    simpl; try discriminate; try reflexivity; lia.
Qed.

Lemma is_nan_false (x : float) : is_nan x = false -> Prim2SF x <> S754_nan.
Proof.
  unfold is_nan. rewrite eqb_spec. intros H E. rewrite E in H. discriminate.
Qed.

Lemma leb_trans (x y z : float) :
  (x <=? y)%float = true -> (y <=? z)%float = true -> (x <=? z)%float = true.
Proof. rewrite !leb_spec. apply SFleb_trans. Qed.

Lemma leb_refl (x : float) : is_nan x = false -> (x <=? x)%float = true.
Proof. intros H. rewrite leb_spec. apply SFleb_refl, is_nan_false, H. Qed.

Lemma leb_total (x y : float) :
  is_nan x = false -> is_nan y = false ->
  (x <=? y)%float = false -> (y <=? x)%float = true.
Proof.
  intros Hx Hy. rewrite !leb_spec.
  apply SFleb_total; apply is_nan_false; assumption.
Qed.

(** *** The maximum of an array *)

Lemma np_maximum_cases (x y : float) : np_maximum x y = x \/ np_maximum x y = y.
Proof. unfold np_maximum. destruct (_ || _); auto. Qed.

Lemma np_maximum_upper (x y : float) :
  is_nan x = false -> is_nan y = false ->
  (x <=? np_maximum x y)%float = true /\
  (y <=? np_maximum x y)%float = true /\
  is_nan (np_maximum x y) = false.
Proof.
  intros Hx Hy. unfold np_maximum. rewrite Hx, orb_false_r.
  destruct (y <=? x)%float eqn:E.
  - repeat split; auto using leb_refl.
  - repeat split; auto using leb_refl, leb_total.
Qed.

Lemma fold_np_maximum_upper (xs : list float) (a : float) :
  is_nan a = false ->
  Forall (fun x => is_nan x = false) xs ->
  (a <=? fold_left np_maximum xs a)%float = true /\
  Forall (fun x => (x <=? fold_left np_maximum xs a)%float = true) xs.
Proof.
  revert a. induction xs as [|y ys IH]; intros a Ha Hxs; simpl.
  - split; [apply leb_refl, Ha | constructor].
  - inversion Hxs as [|? ? Hy Hys]; subst.
    destruct (@np_maximum_upper a y Ha Hy) as (La & Ly & Hn).
    destruct (IH _ Hn Hys) as [Lm Lys].
    split; [eapply leb_trans; eauto|].
    constructor; [eapply leb_trans; eauto | exact Lys].
Qed.

(** The value [np.max] reports is one of the samples. *)
Lemma np_max_In (a : array) (m : float) : np_max a = Ok m -> In m (values a).
Proof.
  unfold np_max. destruct (values a) as [|x xs]; [discriminate|].
  intros [= <-]. revert x. induction xs as [|y ys IH]; intros x; simpl.
  - left; reflexivity.
  - destruct (np_maximum_cases x y) as [E | E]; rewrite E.
    + destruct (IH x) as [H | H]; [left; exact H | right; right; exact H].
    + right. apply IH.
Qed.

(** On an array free of NaN no sample exceeds it. *)
Lemma np_max_upper (a : array) (m : float) :
  np_max a = Ok m ->
  Forall (fun x => is_nan x = false) (values a) ->
  Forall (fun x => (x <=? m)%float = true) (values a).
Proof.
  unfold np_max. destruct (values a) as [|x xs]; [discriminate|].
  intros [= <-] H. inversion H as [|? ? Hx Hxs]; subst.
  destruct (@fold_np_maximum_upper xs x Hx Hxs) as [L Ls].
  constructor; assumption.
Qed.

Section Stages.

Context {ext : Externals}.

(** *** Rest-frame transform *)

Lemma to_rest_frame_on (self : Spectrum) :
  to_rest_frame self = true ->
  values (wavelength (_to_rest_frame self)) =
    map (fun w => (w / (1 + redshift self))%float) (values (wavelength self)) /\
  values (flux (_to_rest_frame self)) =
    map (fun f => (f * (1 + redshift self))%float) (values (flux self)).
Proof.
  intros H. unfold _to_rest_frame. rewrite H. simpl.
  unfold div_scalar, mul_scalar. rewrite !values_rebuild. split; reflexivity.
Qed.

Lemma to_rest_frame_off (self : Spectrum) :
  to_rest_frame self = false -> _to_rest_frame self = self.
Proof. intros H. unfold _to_rest_frame. rewrite H. reflexivity. Qed.

(** C7: for a redshift z > -1, the rest-frame transform, when enabled,
    divides every wavelength sample by (1+z) and multiplies every flux sample
    by (1+z); when disabled it leaves the object, and so both arrays, as they
    were. *)
Theorem to_rest_frame_elementwise (self : Spectrum) :
  (-1 <? redshift self)%float = true ->
  (to_rest_frame self = true ->
     values (wavelength (_to_rest_frame self)) =
       map (fun w => (w / (1 + redshift self))%float)
           (values (wavelength self)) /\
     values (flux (_to_rest_frame self)) =
       map (fun f => (f * (1 + redshift self))%float) (values (flux self))) /\
  (to_rest_frame self = false -> _to_rest_frame self = self).
Proof.
  intros _. split; [apply to_rest_frame_on | apply to_rest_frame_off].
Qed.

(** *** Delinearization *)

(** C3: with delinearization enabled, a wavelength array whose maximum is
    below 5.0 has every sample w replaced by 10^w (the flux is not touched);
    one whose maximum is 5.0 or more is left as it is.  The maximum is the
    value np.max reports: one of the samples, and above every sample of an
    array free of NaN. *)
Theorem linearize_wavelength_threshold (self : Spectrum) (m : float) :
  linearize_wavelength self = true ->
  np_max (wavelength self) = Ok m ->
  (In m (values (wavelength self)) /\
   (Forall (fun x => is_nan x = false) (values (wavelength self)) ->
    Forall (fun x => (x <=? m)%float = true) (values (wavelength self)))) /\
  ((m <? 5)%float = true ->
     exists self',
       _linearize_wavelength self = Ok self' /\
       values (wavelength self') =
         map (np_power 10) (values (wavelength self)) /\
       flux self' = flux self) /\
  ((5 <=? m)%float = true -> _linearize_wavelength self = Ok self).
Proof.
  intros Hl Hm.
  split; [split; [apply np_max_In, Hm | apply np_max_upper, Hm]|].
  unfold _linearize_wavelength. rewrite Hl, Hm. simpl. split.
  - intros Hlt. rewrite Hlt. eexists. split; [reflexivity|].
    simpl. rewrite values_rebuild. split; reflexivity.
  - intros Hge. destruct (m <? 5)%float eqn:Hlt; [|reflexivity].
    apply ltb_leb_false in Hlt. congruence.
Qed.

(** *** Dead-pixel masking *)

Lemma alive_kept (iv : array) : kept (ne_scalar iv 0%float) = alive (values iv).
Proof.
  unfold ne_scalar, alive.
  apply (kept_map (fun x => negb (x =? 0)%float) nan).
Qed.

Lemma alive_In (iv : list float) (k : nat) :
  In k (alive iv) <-> k < length iv /\ (nth k iv nan =? 0)%float = false.
Proof.
  unfold alive. rewrite filter_In, in_seq, negb_true_iff. simpl.
  split; intros [H1 H2]; split; try exact H2; lia.
Qed.

Lemma filter_seq_sorted (p : nat -> bool) (n s : nat) :
  StronglySorted lt (filter p (seq s n)).
Proof.
  revert s. induction n as [|n IH]; intros s; simpl; [constructor|].
  destruct (p s); [|apply IH].
  constructor; [apply IH|].
  apply Forall_forall. intros k Hk.
  apply filter_In in Hk. destruct Hk as [Hk _]. apply in_seq in Hk. lia.
Qed.

Lemma alive_sorted (iv : list float) : StronglySorted lt (alive iv).
Proof. apply filter_seq_sorted. Qed.

Lemma mask_dead_pixels_run (self : Spectrum) (iv : array) :
  ivar self = Some iv ->
  len (wavelength self) = len iv ->
  len (flux self) = len iv ->
  _mask_dead_pixels self =
    Ok (set_wavelength
          (set_ivar
             (set_flux self
                (rebuild (compress (ne_scalar iv 0%float)) (flux self)))
             (rebuild (compress (ne_scalar iv 0%float)) iv))
          (rebuild (compress (ne_scalar iv 0%float)) (wavelength self))).
Proof.
  intros Hi Hw Hf. unfold _mask_dead_pixels, get_ivar. rewrite Hi. simpl.
  assert (Hm : length (ne_scalar iv 0%float) = len iv)
    by (unfold ne_scalar, len; apply length_map).
  rewrite (getitem_mask_Ok (flux self)) by congruence. simpl.
  rewrite Hi. simpl.
  rewrite (getitem_mask_Ok iv) by congruence. simpl.
  rewrite (getitem_mask_Ok (wavelength self)) by congruence. reflexivity.
Qed.

(** Masking reads the three arrays at the indices of the live pixels. *)
Lemma mask_dead_pixels_take_at (self : Spectrum) (iv : array) :
  ivar self = Some iv ->
  len (wavelength self) = len iv ->
  len (flux self) = len iv ->
  exists self' iv',
    _mask_dead_pixels self = Ok self' /\
    ivar self' = Some iv' /\
    values (wavelength self') =
      take_at (alive (values iv)) (values (wavelength self)) /\
    values (flux self') = take_at (alive (values iv)) (values (flux self)) /\
    values iv' = take_at (alive (values iv)) (values iv).
Proof.
  intros Hi Hw Hf.
  assert (Hm : length (ne_scalar iv 0%float) = len iv)
    by (unfold ne_scalar, len; apply length_map).
  rewrite (mask_dead_pixels_run self Hi Hw Hf).
  do 2 eexists. split; [reflexivity|]. simpl. split; [reflexivity|].
  rewrite !values_rebuild. unfold take_at. rewrite <- alive_kept.
  unfold len in *.
  repeat split; apply compress_kept; congruence.
Qed.

(** C4: dead-pixel masking keeps, in all three arrays at once, exactly the
    samples at the indices where ivar is not equal to zero, in their original
    order: every index with ivar = 0 is dropped from wavelength, flux and
    ivar together. *)
Theorem mask_dead_pixels_removes_zero_ivar (self : Spectrum) (iv : array) :
  ivar self = Some iv ->
  len (wavelength self) = len iv ->
  len (flux self) = len iv ->
  (forall k, In k (alive (values iv)) <->
             k < len iv /\ (nth k (values iv) nan =? 0)%float = false) /\
  StronglySorted lt (alive (values iv)) /\
  exists self' iv',
    _mask_dead_pixels self = Ok self' /\
    ivar self' = Some iv' /\
    values (wavelength self') =
      take_at (alive (values iv)) (values (wavelength self)) /\
    values (flux self') = take_at (alive (values iv)) (values (flux self)) /\
    values iv' = take_at (alive (values iv)) (values iv).
Proof.
  intros Hi Hw Hf.
  split; [intros k; apply alive_In|].
  split; [apply alive_sorted|].
  apply mask_dead_pixels_take_at; assumption.
Qed.

End Stages.

Section Ivar.

Context {ext : Externals}.

(** *** Inverse variance *)

Lemma has_column_getitem (df : DataFrame) (key : string) :
  has_column df key = true ->
  exists j, index_of key (columns df) = Some j /\
            getitem df key = Ok (Series (map (fun r => nth j r nan) (rows df))).
Proof.
  unfold has_column, getitem.
  induction (columns df) as [|l ls IH]; simpl; [discriminate|].
  destruct (String.eqb key l); simpl.
  - intros _. exists 0. split; reflexivity.
  - intros H. destruct (IH H) as [j [Hj _]]. rewrite Hj. simpl.
    exists (S j). split; reflexivity.
Qed.

(** With an [ivar] column the stage is a column read, whatever the numerical
    libraries are. *)
Lemma calculate_ivar_column (ext' : Externals) (self : Spectrum) (cfg : Config)
  (df : DataFrame) :
  data self = Some df ->
  has_column df "ivar" = true ->
  @_calculate_ivar ext' self cfg = (getitem df "ivar", cfg).
Proof.
  intros Hd Hc. unfold _calculate_ivar. rewrite Hd. simpl. rewrite Hc.
  reflexivity.
Qed.

Lemma window_config_after (self : Spectrum) (cfg : Config) :
  IVAR_INTERVALS (config_after self cfg) = window self cfg.
Proof. unfold config_after, window. destruct (rest_frame self); reflexivity. Qed.

(** Without an [ivar] column the stage measures the continuum window. *)
Lemma calculate_ivar_estimate (self : Spectrum) (cfg : Config) (df : DataFrame) :
  data self = Some df ->
  has_column df "ivar" = false ->
  len (flux self) = len (wavelength self) ->
  _calculate_ivar self cfg =
    (Ok (np_full (len (wavelength self))
           (1 / np_var (continuum_of (window self cfg)
                          (values (wavelength self)) (values (flux self))))),
     config_after self cfg).
Proof.
  intros Hd Hc Hl. unfold _calculate_ivar. rewrite Hd. simpl. rewrite Hc.
  fold (config_after self cfg).
  replace (if negb (rest_frame self)
           then set_IVAR_INTERVALS cfg
                  (scale_interval (IVAR_INTERVALS cfg) (1 + redshift self))
           else cfg) with (config_after self cfg)
    by (unfold config_after; destruct (rest_frame self); reflexivity).
  rewrite window_config_after.
  unfold ge_scalar, le_scalar.
  rewrite (mask_and_map (fun x => (fst (window self cfg) <=? x)%float)
                        (fun x => (x <=? snd (window self cfg))%float)).
  rewrite getitem_mask_Ok by (rewrite length_map; symmetry; exact Hl).
  simpl. rewrite values_rebuild.
  rewrite (compress_map_filter
             (fun x => (fst (window self cfg) <=? x)%float
                       && (x <=? snd (window self cfg))%float)).
  reflexivity.
Qed.

Lemma values_np_full (n : nat) (x : float) : values (np_full n x) = repeat x n.
Proof. reflexivity. Qed.

Lemma len_np_full (n : nat) (x : float) : len (np_full n x) = n.
Proof. unfold len. simpl. apply repeat_length. Qed.

(** The two windows, with the arithmetic written out. *)
Lemma window_rest (self : Spectrum) (cfg : Config) (lo hi : float) :
  IVAR_INTERVALS cfg = (lo, hi) -> rest_frame self = true ->
  window self cfg = (lo, hi).
Proof. intros HI Hr. unfold window. rewrite Hr. exact HI. Qed.

Lemma window_observed (self : Spectrum) (cfg : Config) (lo hi : float) :
  IVAR_INTERVALS cfg = (lo, hi) -> rest_frame self = false ->
  window self cfg =
    ((lo * (1 + redshift self))%float, (hi * (1 + redshift self))%float).
Proof.
  intros HI Hr. unfold window, scale_interval. rewrite Hr, HI. reflexivity.
Qed.


(** C5, as the program has it: the estimation raises nothing on a degenerate
    window.  An empty continuum subset, whose variance numpy reports as NaN,
    gives every pixel the ivar NaN; a subset of variance zero gives every
    pixel the ivar +infinity. *)
Theorem calculate_ivar_degenerate (self : Spectrum) (cfg : Config)
  (df : DataFrame) :
  data self = Some df ->
  has_column df "ivar" = false ->
  len (flux self) = len (wavelength self) ->
  (continuum_of (window self cfg)
     (values (wavelength self)) (values (flux self)) = [] ->
   np_var [] = nan ->
   fst (_calculate_ivar self cfg) = Ok (np_full (len (wavelength self)) nan)) /\
  (np_var (continuum_of (window self cfg)
             (values (wavelength self)) (values (flux self))) = 0%float ->
   fst (_calculate_ivar self cfg) =
     Ok (np_full (len (wavelength self)) infinity)).
Proof.
  intros Hd Hc Hl. rewrite (calculate_ivar_estimate self cfg Hd Hc Hl). simpl.
  split.
  - intros He Hv. rewrite He, Hv. reflexivity.
  - intros Hv. rewrite Hv. reflexivity.
Qed.

(** What the stage does to the shared configuration. *)
Lemma calculate_ivar_store (self : Spectrum) (cfg : Config) (df : DataFrame) :
  data self = Some df ->
  TRIM_INTERVALS (snd (_calculate_ivar self cfg)) = TRIM_INTERVALS cfg /\
  (has_column df "ivar" = true -> snd (_calculate_ivar self cfg) = cfg) /\
  (rest_frame self = true -> snd (_calculate_ivar self cfg) = cfg) /\
  (has_column df "ivar" = false -> rest_frame self = false ->
     IVAR_INTERVALS (snd (_calculate_ivar self cfg)) =
       scale_interval (IVAR_INTERVALS cfg) (1 + redshift self)%float).
Proof.
  intros Hd. unfold _calculate_ivar. rewrite Hd. simpl.
  destruct (has_column df "ivar"), (rest_frame self); simpl;
    repeat split; intros; try reflexivity; try discriminate.
Qed.

End Ivar.

Section Constructor.

Context {ext : Externals}.

(** *** The loader *)

Lemma read_data_unsupported (path : string) (skiprows : nat) (separator : string) :
  endswith path ".txt" = false ->
  endswith path ".fits" = false ->
  read_data path skiprows separator = Ok None.
Proof. intros H1 H2. unfold read_data. rewrite H1, H2. reflexivity. Qed.

(** C9, as the program has it: for a path that ends in neither ".txt" nor
    ".fits" the loader raises nothing and returns None; constructing a
    Spectrum from such a path then fails with a TypeError at the first
    column read, and the configuration is left as it was. *)
Theorem read_data_unsupported_extension (path : string) (skiprows : nat)
  (separator : string) :
  endswith path ".txt" = false ->
  endswith path ".fits" = false ->
  read_data path skiprows separator = Ok None /\
  forall z a_v linearize to_rest cfg,
    __init__ path z a_v linearize skiprows separator to_rest cfg =
      (Raise TypeError, cfg).
Proof.
  intros H1 H2.
  pose proof (read_data_unsupported path skiprows separator H1 H2) as Hr.
  split; [exact Hr|]. intros z a_v linearize to_rest cfg.
  unfold __init__, load. rewrite Hr. reflexivity.
Qed.

Lemma getitem_len (df : DataFrame) (key : string) (a : array) :
  getitem df key = Ok a -> len a = length (rows df).
Proof.
  unfold getitem. destruct (index_of key (columns df)); [|discriminate].
  intros [= <-]. unfold len. simpl. apply length_map.
Qed.

Lemma bind_Ok {A B : Type} (r : result A) (k : A -> result B) (b : B) :
  bind r k = Ok b -> exists a, r = Ok a /\ k a = Ok b.
Proof. destruct r as [a|e]; simpl; [eauto | discriminate]. Qed.

Lemma load_inv (path : string) (z : float) (a_v : option float)
  (linearize : bool) (skiprows : nat) (separator : string) (to_rest : bool)
  (self : Spectrum) :
  load path z a_v linearize skiprows separator to_rest = Ok self ->
  exists df lam flx,
    read_data path skiprows separator = Ok (Some df) /\
    getitem df "lambda" = Ok lam /\
    getitem df "flux" = Ok flx /\
    self = mkSpectrum path (stem path) (Some df) (dot_values lam)
             (dot_values flx) z to_rest linearize a_v to_rest None.
Proof.
  unfold load. intros H.
  apply bind_Ok in H. destruct H as [d [Hd H]].
  apply bind_Ok in H. destruct H as [lam [Hlam H]].
  apply bind_Ok in H. destruct H as [flx [Hflx H]].
  destruct d as [df|]; [|discriminate].
  exists df, lam, flx. simpl in *. injection H as <-. auto.
Qed.

(** *** What a stage leaves alone *)

Lemma same_shape_refl (s : Spectrum) : same_shape s s.
Proof. repeat split. Qed.

Lemma same_shape_aligned (s s' : Spectrum) :
  same_shape s s' -> aligned s -> aligned s'.
Proof.
  intros (_ & _ & _ & Hi & Hw & Hf) [Hl Ha]. split; [congruence|].
  intros i E. rewrite Hi in E. rewrite Hw. auto.
Qed.

Lemma same_shape_fits_table (s s' : Spectrum) :
  same_shape s s' -> fits_table s -> fits_table s'.
Proof.
  intros (Hd & _ & _ & _ & Hw & Hf) (df & E & Lw & Lf).
  exists df. repeat split; congruence.
Qed.

Lemma linearize_wavelength_shape (s s' : Spectrum) :
  _linearize_wavelength s = Ok s' -> same_shape s s'.
Proof.
  unfold _linearize_wavelength.
  destruct (linearize_wavelength s); [|intros [= <-]; apply same_shape_refl].
  destruct (np_max (wavelength s)) as [m|e]; simpl; [|discriminate].
  destruct (m <? 5)%float; intros [= <-]; [|apply same_shape_refl].
  repeat split. simpl. apply len_rebuild_map.
Qed.

(** The extinction stage hands the object back as it received it. *)
Lemma correct_extinction_same (s s' : Spectrum) (r : option array) :
  _correct_extinction s = Ok (s', r) -> s' = s.
Proof.
  unfold _correct_extinction. destruct (a_v_extinction s) as [a_v|].
  - intros H.
    apply bind_Ok in H. destruct H as [wave [_ H]].
    apply bind_Ok in H. destruct H as [curve [_ H]].
    apply bind_Ok in H. destruct H as [corrected [_ H]].
    injection H as <- _. reflexivity.
  - intros [= <- _]. reflexivity.
Qed.

Lemma to_rest_frame_shape (s : Spectrum) : same_shape s (_to_rest_frame s).
Proof.
  unfold _to_rest_frame. destruct (to_rest_frame s); [|apply same_shape_refl].
  repeat split; simpl; apply len_rebuild_map.
Qed.

Lemma load_fits_table (path : string) (z : float) (a_v : option float)
  (linearize : bool) (skiprows : nat) (separator : string) (to_rest : bool)
  (self : Spectrum) :
  load path z a_v linearize skiprows separator to_rest = Ok self ->
  fits_table self /\ aligned self /\
  rest_frame self = to_rest /\ redshift self = z.
Proof.
  intros H. apply load_inv in H.
  destruct H as (df & lam & flx & _ & Hlam & Hflx & ->).
  apply getitem_len in Hlam, Hflx. unfold fits_table, aligned. simpl.
  unfold dot_values, len in *. simpl.
  repeat split; try congruence.
  exists df. auto.
Qed.

Lemma calculate_ivar_len (self : Spectrum) (cfg cfg' : Config) (i : array) :
  fits_table self ->
  _calculate_ivar self cfg = (Ok i, cfg') ->
  len i = len (wavelength self).
Proof.
  intros (df & Hd & Lw & Lf).
  destruct (has_column df "ivar") eqn:Hc.
  - rewrite (calculate_ivar_column ext self cfg Hd Hc).
    intros [= H _]. apply getitem_len in H. congruence.
  - rewrite (calculate_ivar_estimate self cfg Hd Hc) by congruence.
    intros [= <- _]. apply len_np_full.
Qed.

Lemma mask_dead_pixels_aligned (self self' : Spectrum) :
  aligned self ->
  _mask_dead_pixels self = Ok self' ->
  aligned self' /\
  exists i', ivar self' = Some i' /\
             len (wavelength self') = len (flux self') /\
             len (flux self') = len i'.
Proof.
  intros [Hl Ha]. destruct (ivar self) as [iv|] eqn:Hi.
  - rewrite (mask_dead_pixels_run self Hi)
      by (rewrite <- ?Hl; apply eq_sym, Ha; reflexivity).
    intros [= <-]. simpl.
    assert (Lw : len (rebuild (compress (ne_scalar iv 0%float)) (wavelength self))
                 = len (rebuild (compress (ne_scalar iv 0%float)) (flux self))).
    { unfold len. rewrite !values_rebuild. apply compress_same_length.
      exact Hl. }
    assert (Lf : len (rebuild (compress (ne_scalar iv 0%float)) (flux self))
                 = len (rebuild (compress (ne_scalar iv 0%float)) iv)).
    { unfold len. rewrite !values_rebuild. apply compress_same_length.
      fold (len (flux self)). fold (len iv). rewrite <- Hl.
      symmetry. apply Ha. reflexivity. }
    split.
    + split; [exact Lw|]. simpl. intros i [= <-]. congruence.
    + eexists. split; [reflexivity|]. split; assumption.
  - unfold _mask_dead_pixels, get_ivar. rewrite Hi. discriminate.
Qed.

(** *** Construction, stage by stage *)

Lemma init_inv (path : string) (z : float) (a_v : option float)
  (linearize : bool) (skiprows : nat) (separator : string) (to_rest : bool)
  (cfg cfg' : Config) (self : Spectrum) :
  __init__ path z a_v linearize skiprows separator to_rest cfg = (Ok self, cfg') ->
  exists self0 self1 self2 r i,
    load path z a_v linearize skiprows separator to_rest = Ok self0 /\
    _linearize_wavelength self0 = Ok self1 /\
    _correct_extinction self1 = Ok (self2, r) /\
    _calculate_ivar (_to_rest_frame self2) cfg = (Ok i, cfg') /\
    _mask_dead_pixels (set_ivar (_to_rest_frame self2) i) = Ok self.
Proof.
  unfold __init__.
  destruct (load _ _ _ _ _ _ _) as [self0|e] eqn:H0; [|discriminate].
  destruct (_linearize_wavelength self0) as [self1|e] eqn:H1; [|discriminate].
  destruct (_correct_extinction self1) as [[self2 r]|e] eqn:H2;
    [|discriminate].
  destruct (_calculate_ivar (_to_rest_frame self2) cfg) as [[i|e] c] eqn:Hc;
    [|discriminate].
  intros [= Hm <-]. exists self0, self1, self2, r, i.
  repeat split; assumption || reflexivity.
Qed.

(** C1: when the constructor returns a Spectrum, the object it had after
    loading and after each of the five stages has a wavelength, a flux and
    (once assigned) an ivar sequence of one length, and so has the returned
    object. *)
Theorem lengths_agree_after_every_stage (path : string) (z : float)
  (a_v : option float) (linearize : bool) (skiprows : nat)
  (separator : string) (to_rest : bool) (cfg cfg' : Config) (self : Spectrum) :
  __init__ path z a_v linearize skiprows separator to_rest cfg = (Ok self, cfg') ->
  exists self0 self1 self2 r i,
    load path z a_v linearize skiprows separator to_rest = Ok self0 /\
    _linearize_wavelength self0 = Ok self1 /\
    _correct_extinction self1 = Ok (self2, r) /\
    _calculate_ivar (_to_rest_frame self2) cfg = (Ok i, cfg') /\
    _mask_dead_pixels (set_ivar (_to_rest_frame self2) i) = Ok self /\
    aligned self0 /\ aligned self1 /\ aligned self2 /\
    aligned (_to_rest_frame self2) /\
    aligned (set_ivar (_to_rest_frame self2) i) /\
    aligned self /\
    exists i', ivar self = Some i' /\
               len (wavelength self) = len (flux self) /\
               len (flux self) = len i'.
Proof.
  intros H. apply init_inv in H.
  destruct H as (self0 & self1 & self2 & r & i & H0 & H1 & H2 & H3 & H4).
  exists self0, self1, self2, r, i.
  destruct (load_fits_table _ _ _ _ _ _ _ H0) as (T0 & A0 & _ & _).
  pose proof (linearize_wavelength_shape _ H1) as S1.
  pose proof (correct_extinction_same _ H2) as E2.
  pose proof (to_rest_frame_shape self2) as S3.
  assert (A1 : aligned self1) by (eapply same_shape_aligned; eauto).
  assert (T1 : fits_table self1) by (eapply same_shape_fits_table; eauto).
  assert (A2 : aligned self2) by (rewrite E2; exact A1).
  assert (T2 : fits_table self2) by (rewrite E2; exact T1).
  assert (A3 : aligned (_to_rest_frame self2))
    by (eapply same_shape_aligned; eauto).
  assert (T3 : fits_table (_to_rest_frame self2))
    by (eapply same_shape_fits_table; eauto).
  pose proof (calculate_ivar_len _ T3 H3) as Li.
  assert (A4 : aligned (set_ivar (_to_rest_frame self2) i)).
  { destruct A3 as [L _]. split; [exact L|]. simpl. intros j [= <-]. exact Li. }
  destruct (mask_dead_pixels_aligned A4 H4) as [A5 F].
  repeat (split; [assumption|]). exact F.
Qed.

End Constructor.

Section Extinction.

Context {ext : Externals}.

(** *** Extinction correction *)

Lemma linearize_wavelength_kind (s s' : Spectrum) (v : list float) :
  wavelength s = ndarray v ->
  _linearize_wavelength s = Ok s' ->
  exists v', wavelength s' = ndarray v'.
Proof.
  intros Hw. unfold _linearize_wavelength.
  destruct (linearize_wavelength s); [|intros [= <-]; eauto].
  destruct (np_max (wavelength s)) as [m|e]; simpl; [|discriminate].
  destruct (m <? 5)%float; intros [= <-]; [|eauto].
  simpl. rewrite Hw. simpl. eauto.
Qed.

Lemma correct_extinction_ndarray (s : Spectrum) (a_v : float) (v : list float) :
  a_v_extinction s = Some a_v ->
  wavelength s = ndarray v ->
  _correct_extinction s = Raise AttributeError.
Proof.
  intros Ha Hw. unfold _correct_extinction. rewrite Ha, Hw. reflexivity.
Qed.

(** C6, against the program: with an extinction magnitude supplied the stage
    never stores a corrected flux.  Whenever it returns, the object is the one
    it received, the flux array included, and the de-reddened flux is only the
    value handed back to the caller; on an ndarray wavelength, which is what
    the constructor holds, it raises AttributeError before computing
    anything. *)
Theorem correct_extinction_discards_correction (self : Spectrum) (a_v : float) :
  a_v_extinction self = Some a_v ->
  (forall self' r,
     _correct_extinction self = Ok (self', r) ->
     self' = self /\ flux self' = flux self /\
     exists wave curve corrected,
       to_numpy (wavelength self) = Ok wave /\
       fp99 wave a_v r_v_extinction = Ok curve /\
       ext_remove curve (flux self) = Ok corrected /\
       r = Some corrected) /\
  (forall v, wavelength self = ndarray v ->
     _correct_extinction self = Raise AttributeError).
Proof.
  intros Ha. split.
  - intros self' r H. pose proof (correct_extinction_same _ H) as E.
    subst self'. split; [reflexivity|]. split; [reflexivity|].
    unfold _correct_extinction in H. rewrite Ha in H.
    apply bind_Ok in H. destruct H as [wave [Hw H]].
    apply bind_Ok in H. destruct H as [curve [Hc H]].
    apply bind_Ok in H. destruct H as [corrected [Hr H]].
    injection H as <-. exists wave, curve, corrected. auto.
  - intros v Hw. exact (correct_extinction_ndarray self Ha Hw).
Qed.

(** The constructor drops the returned value and goes on with the flux it
    loaded; with an extinction magnitude it does not get that far. *)
Lemma init_with_extinction_never_returns (path : string) (z a_v : float)
  (linearize : bool) (skiprows : nat) (separator : string) (to_rest : bool)
  (cfg : Config) :
  exists e,
    __init__ path z (Some a_v) linearize skiprows separator to_rest cfg
      = (Raise e, cfg).
Proof.
  unfold __init__.
  destruct (load _ _ _ _ _ _ _) as [self0|e] eqn:H0; [|eauto].
  destruct (_linearize_wavelength self0) as [self1|e] eqn:H1; [|eauto].
  apply load_inv in H0. destruct H0 as (df & lam & flx & _ & _ & _ & E).
  assert (K0 : wavelength self0 = ndarray (values lam)) by (rewrite E; reflexivity).
  assert (A0 : a_v_extinction self0 = Some a_v) by (rewrite E; reflexivity).
  destruct (linearize_wavelength_kind _ K0 H1) as [v' K1].
  assert (A1 : a_v_extinction self1 = Some a_v).
  { revert H1. unfold _linearize_wavelength.
    destruct (linearize_wavelength self0); [|intros [= <-]; exact A0].
    destruct (np_max (wavelength self0)) as [m|e']; simpl; [|discriminate].
    destruct (m <? 5)%float; intros [= <-]; exact A0. }
  rewrite (correct_extinction_ndarray self1 A1 K1). eauto.
Qed.

End Extinction.

Section Store.

Context {ext : Externals}.

(** *** The shared configuration *)

Lemma mask_dead_pixels_data (s s' : Spectrum) :
  _mask_dead_pixels s = Ok s' -> data s' = data s.
Proof.
  unfold _mask_dead_pixels. intros H.
  apply bind_Ok in H. destruct H as [i [_ H]].
  apply bind_Ok in H. destruct H as [f [_ H]].
  apply bind_Ok in H. destruct H as [i1 [_ H]].
  apply bind_Ok in H. destruct H as [i' [_ H]].
  apply bind_Ok in H. destruct H as [w [_ H]].
  injection H as <-. reflexivity.
Qed.

(** The constructor's store is the one the ivar stage leaves, or the one it
    was given when an earlier step raised. *)
Lemma init_store (path : string) (z : float) (a_v : option float)
  (linearize : bool) (skiprows : nat) (separator : string) (to_rest : bool)
  (cfg : Config) :
  snd (__init__ path z a_v linearize skiprows separator to_rest cfg) = cfg \/
  exists self3 df,
    data self3 = Some df /\ rest_frame self3 = to_rest /\ redshift self3 = z /\
    snd (__init__ path z a_v linearize skiprows separator to_rest cfg)
      = snd (_calculate_ivar self3 cfg).
Proof.
  unfold __init__.
  destruct (load _ _ _ _ _ _ _) as [self0|e] eqn:H0; [|left; reflexivity].
  destruct (_linearize_wavelength self0) as [self1|e] eqn:H1;
    [|left; reflexivity].
  destruct (_correct_extinction self1) as [[self2 r]|e] eqn:H2;
    [|left; reflexivity].
  right.
  destruct (load_fits_table _ _ _ _ _ _ _ H0) as ((df & D0 & _) & _ & R0 & Z0).
  destruct (linearize_wavelength_shape _ H1) as (D1 & Z1 & R1 & _).
  apply correct_extinction_same in H2. subst self2.
  destruct (to_rest_frame_shape self1) as (D3 & Z3 & R3 & _).
  exists (_to_rest_frame self1), df.
  repeat split; try congruence.
  destruct (_calculate_ivar (_to_rest_frame self1) cfg) as [[i|e] c];
    reflexivity.
Qed.

(** C8, as the program has it: a construction that transforms to rest frame,
    or whose table has an ivar column, leaves the configured continuum
    interval as it was; a construction with to_rest_frame disabled and no
    ivar column stores the interval rescaled by 1+redshift back into the
    shared configuration.  The trimming interval is never written. *)
Theorem init_config_effect (path : string) (z : float) (a_v : option float)
  (linearize : bool) (skiprows : nat) (separator : string) (to_rest : bool)
  (cfg : Config) :
  TRIM_INTERVALS
    (snd (__init__ path z a_v linearize skiprows separator to_rest cfg))
    = TRIM_INTERVALS cfg /\
  (to_rest = true ->
     snd (__init__ path z a_v linearize skiprows separator to_rest cfg) = cfg) /\
  (forall self cfg' df,
     __init__ path z a_v linearize skiprows separator to_rest cfg
       = (Ok self, cfg') ->
     data self = Some df ->
     (has_column df "ivar" = true -> cfg' = cfg) /\
     (has_column df "ivar" = false -> to_rest = false ->
        IVAR_INTERVALS cfg' = scale_interval (IVAR_INTERVALS cfg) (1 + z)%float)).
Proof.
  split; [|split].
  - destruct (init_store path z a_v linearize skiprows separator to_rest cfg)
      as [E | (self3 & df & D & R & Z & E)]; rewrite E; [reflexivity|].
    apply (calculate_ivar_store self3 cfg D).
  - intros T.
    destruct (init_store path z a_v linearize skiprows separator to_rest cfg)
      as [E | (self3 & df & D & R & Z & E)]; rewrite E; [reflexivity|].
    apply (calculate_ivar_store self3 cfg D). congruence.
  - intros self cfg' df H Hd.
    apply init_inv in H.
    destruct H as (self0 & self1 & self2 & r & i & H0 & H1 & H2 & H3 & H4).
    destruct (load_fits_table _ _ _ _ _ _ _ H0) as (_ & _ & R0 & Z0).
    destruct (linearize_wavelength_shape _ H1) as (D1 & Z1 & R1 & _).
    apply correct_extinction_same in H2. subst self2.
    destruct (to_rest_frame_shape self1) as (D3 & Z3 & R3 & _).
    apply mask_dead_pixels_data in H4. simpl in H4.
    assert (D : data (_to_rest_frame self1) = Some df) by congruence.
    pose proof (calculate_ivar_store (_to_rest_frame self1) cfg D) as S.
    rewrite H3 in S. simpl in S. destruct S as (_ & S1 & _ & S2).
    split; [exact S1|]. intros Hc Ht. rewrite (S2 Hc) by congruence.
    congruence.
Qed.

End Store.

Section NonFinite.

Context {ext : Externals}.

(** *** Pixels that are not finite *)

Lemma rebuild_same (f : list float -> list float) (a : array) :
  f (values a) = values a -> rebuild f a = a.
Proof. destruct a; simpl; intros ->; reflexivity. Qed.

Lemma take_at_In3 (idx : list nat) (a b c : list float) (k : nat) :
  In k idx ->
  exists j, nth_error (take_at idx a) j = Some (nth k a nan) /\
            nth_error (take_at idx b) j = Some (nth k b nan) /\
            nth_error (take_at idx c) j = Some (nth k c nan).
Proof.
  intros H. apply In_nth_error in H. destruct H as [j Hj].
  exists j. unfold take_at.
  repeat split; apply (map_nth_error (fun k => nth k _ nan)); exact Hj.
Qed.

(** Masking an object that has no zero-ivar pixel changes nothing. *)
Lemma mask_dead_pixels_noop (self : Spectrum) (iv : array) :
  ivar self = Some iv ->
  len (wavelength self) = len iv ->
  len (flux self) = len iv ->
  Forall (fun x => negb (x =? 0)%float = true) (values iv) ->
  _mask_dead_pixels self = Ok self.
Proof.
  intros Hi Hw Hf Hnz. rewrite (mask_dead_pixels_run self Hi Hw Hf).
  assert (Ht : Forall (fun b => b = true) (ne_scalar iv 0%float)).
  { unfold ne_scalar. apply Forall_map. exact Hnz. }
  assert (Hm : length (ne_scalar iv 0%float) = len iv)
    by (unfold ne_scalar, len; apply length_map).
  unfold len in *.
  rewrite !rebuild_same by (apply compress_all_true; [congruence | exact Ht]).
  destruct self. simpl in *. subst. reflexivity.
Qed.

(** A number compares unequal to zero exactly when it is neither zero. *)
Lemma ne_zero_iff (x : float) :
  (x =? 0)%float = false <-> x <> 0%float /\ x <> (-0)%float.
Proof.
  split.
  - intros E. split; intros ->; vm_compute in E; discriminate.
  - intros [N1 N2]. destruct (x =? 0)%float eqn:E; [|reflexivity].
    destruct (eqb_zero_inv E); contradiction.
Qed.

(** C10: dead-pixel masking removes exactly the pixels whose ivar is a zero:
    the wavelength, flux and ivar it returns are the inputs read at the
    increasing list of the indices whose ivar is neither +0 nor -0.  So a
    pixel whose ivar is NaN or infinite stays, at one common position of the
    three outputs; and when the continuum window has variance zero, every
    pixel gets a non-finite ivar and masking removes no pixel at all. *)
Theorem mask_dead_pixels_keeps_non_finite :
  (forall iv k,
     k < length iv -> ~ In k (alive iv) ->
     nth k iv nan = 0%float \/ nth k iv nan = (-0)%float) /\
  (forall self iv,
     ivar self = Some iv ->
     len (wavelength self) = len iv ->
     len (flux self) = len iv ->
     exists self' iv',
       _mask_dead_pixels self = Ok self' /\
       ivar self' = Some iv' /\
       values (wavelength self') =
         take_at (alive (values iv)) (values (wavelength self)) /\
       values (flux self') =
         take_at (alive (values iv)) (values (flux self)) /\
       values iv' = take_at (alive (values iv)) (values iv) /\
       StronglySorted lt (alive (values iv)) /\
       (forall k, In k (alive (values iv)) -> k < len iv) /\
       (forall k,
          k < len iv ->
          (In k (alive (values iv)) <->
           nth k (values iv) nan <> 0%float /\
           nth k (values iv) nan <> (-0)%float)) /\
       forall k,
         k < len iv ->
         is_finite (nth k (values iv) nan) = false ->
         In k (alive (values iv)) /\
         exists j,
           nth_error (values (wavelength self')) j =
             Some (nth k (values (wavelength self)) nan) /\
           nth_error (values (flux self')) j =
             Some (nth k (values (flux self)) nan) /\
           nth_error (values iv') j = Some (nth k (values iv) nan)) /\
  (forall self cfg df,
     data self = Some df ->
     has_column df "ivar" = false ->
     len (flux self) = len (wavelength self) ->
     (np_var (continuum_of (window self cfg)
                (values (wavelength self)) (values (flux self))) =? 0)%float
       = true ->
     exists i,
       fst (_calculate_ivar self cfg) = Ok i /\
       Forall (fun x => is_finite x = false) (values i) /\
       _mask_dead_pixels (set_ivar self i) = Ok (set_ivar self i)).
Proof.
  split; [|split].
  - intros iv k Hk Hn. apply eqb_zero_inv.
    destruct (nth k iv nan =? 0)%float eqn:E; [reflexivity|].
    exfalso. apply Hn. apply alive_In. split; assumption.
  - intros self iv Hi Hw Hf.
    destruct (mask_dead_pixels_take_at self Hi Hw Hf)
      as (self' & iv' & Hr & Hi' & Ew & Ef & Ei).
    exists self', iv'.
    split; [exact Hr|]. split; [exact Hi'|].
    split; [exact Ew|]. split; [exact Ef|]. split; [exact Ei|].
    split; [apply alive_sorted|].
    split; [intros k Hk; apply alive_In in Hk; apply Hk|].
    split.
    { intros k Hk. rewrite alive_In, ne_zero_iff. unfold len in Hk. tauto. }
    intros k Hk Hnf.
    assert (Hin : In k (alive (values iv))).
    { apply alive_In. split; [exact Hk|].
      apply negb_true_iff. apply non_finite_ne_zero. exact Hnf. }
    split; [exact Hin|].
    rewrite Ew, Ef, Ei. apply take_at_In3. exact Hin.
  - intros self cfg df Hd Hc Hl Hz.
    rewrite (calculate_ivar_estimate self cfg Hd Hc Hl). simpl.
    eexists. split; [reflexivity|].
    assert (Hnf : is_finite
                    (1 / np_var (continuum_of (window self cfg)
                                   (values (wavelength self))
                                   (values (flux self)))) = false).
    { destruct (eqb_zero_inv Hz) as [E | E]; rewrite E; reflexivity. }
    assert (Hall : Forall (fun x => is_finite x = false)
                     (values (np_full (len (wavelength self))
                        (1 / np_var (continuum_of (window self cfg)
                                       (values (wavelength self))
                                       (values (flux self))))))).
    { rewrite values_np_full. apply Forall_forall.
      intros x Hx. apply repeat_spec in Hx. subst x. exact Hnf. }
    split; [exact Hall|].
    apply (mask_dead_pixels_noop (set_ivar self _) eq_refl).
    + simpl. rewrite len_np_full. reflexivity.
    + simpl. rewrite len_np_full. exact Hl.
    + eapply Forall_impl; [|exact Hall].
      intros x. apply non_finite_ne_zero.
Qed.

End NonFinite.

(** * The program on the sample tables *)

Lemma to_rest_frame_elementwise_witness :
  (-1 <? redshift observed)%float = true /\
  values (wavelength (_to_rest_frame observed)) = [1; 2; 3]%float /\
  values (flux (_to_rest_frame observed)) = [4; 8; 16]%float.
Proof.
  split; [reflexivity|].
  exact (proj1 (to_rest_frame_elementwise observed eq_refl) eq_refl).
Defined.

Lemma linearize_wavelength_threshold_witness :
  (exists self',
     @_linearize_wavelength sample_externals log_state = Ok self' /\
     values (wavelength self') = [10; 100; 1000]%float /\
     flux self' = flux log_state) /\
  @_linearize_wavelength sample_externals plate_state = Ok plate_state.
Proof.
  split.
  - exact (proj1 (proj2 (@linearize_wavelength_threshold sample_externals
                           log_state 3%float eq_refl eq_refl)) eq_refl).
  - exact (proj2 (proj2 (@linearize_wavelength_threshold sample_externals
                           plate_state 4006%float eq_refl eq_refl)) eq_refl).
Defined.

Lemma mask_dead_pixels_removes_zero_ivar_witness :
  alive [2; 2; 0; 4; 4; 0; 8]%float = [0; 1; 3; 4; 6] /\
  exists self' iv',
    _mask_dead_pixels plate_with_ivar = Ok self' /\
    ivar self' = Some iv' /\
    values (wavelength self') = [4000; 4001; 4003; 4004; 4006]%float /\
    values (flux self') = [10; 11; 13; 14; 16]%float /\
    values iv' = [2; 2; 4; 4; 8]%float.
Proof.
  split; [reflexivity|].
  exact (proj2 (proj2 (@mask_dead_pixels_removes_zero_ivar plate_with_ivar
                         (Series [2; 2; 0; 4; 4; 0; 8]%float)
                         eq_refl eq_refl eq_refl))).
Defined.

Lemma lengths_agree_after_every_stage_witness :
  @__init__ sample_externals "examples/plate.fits" 0%float None true 2 tab true
     wide_config = (Ok plate_result, wide_config) /\
  exists i', ivar plate_result = Some i' /\
             len (wavelength plate_result) = len (flux plate_result) /\
             len (flux plate_result) = len i'.
Proof.
  split; [reflexivity|].
  destruct (@lengths_agree_after_every_stage sample_externals
              "examples/plate.fits" 0%float None true 2 tab true
              wide_config wide_config plate_result eq_refl)
    as (s0 & s1 & s2 & r & i & _ & _ & _ & _ & _ & _ & _ & _ & _ & _ & _ & F).
  exact F.
Defined.


(** C5 at the sample table of constant flux: no exception, whether the
    window holds no sample (every ivar is NaN) or five samples of variance
    zero (every ivar is +infinity). *)
Lemma degenerate_window_returns :
  @__init__ sample_externals "examples/flat.txt" 0%float None false 2 tab true
     far_config
    = (Ok (set_ivar flat_state (ndarray [nan; nan; nan; nan; nan]%float)),
       far_config) /\
  @__init__ sample_externals "examples/flat.txt" 0%float None false 2 tab true
     wide_config
    = (Ok (set_ivar flat_state
             (ndarray [infinity; infinity; infinity; infinity; infinity]%float)),
       wide_config).
Proof. split; reflexivity. Qed.

Lemma calculate_ivar_degenerate_witness :
  fst (@_calculate_ivar sample_externals flat_state far_config)
    = Ok (np_full 5 nan) /\
  fst (@_calculate_ivar sample_externals flat_state wide_config)
    = Ok (np_full 5 infinity).
Proof.
  split.
  - exact (proj1 (@calculate_ivar_degenerate sample_externals flat_state
                    far_config flat_frame eq_refl eq_refl eq_refl)
             eq_refl eq_refl).
  - exact (proj2 (@calculate_ivar_degenerate sample_externals flat_state
                    wide_config flat_frame eq_refl eq_refl eq_refl)
             eq_refl).
Defined.

Lemma correct_extinction_discards_correction_witness :
  @_correct_extinction sample_externals reddened_series
    = Ok (reddened_series, Some (ndarray [10; 20; 40]%float)) /\
  flux reddened_series = ndarray [1; 2; 4]%float /\
  @_correct_extinction sample_externals reddened = Raise AttributeError.
Proof.
  split; [reflexivity|]. split.
  - exact (proj1 (proj2 (proj1 (@correct_extinction_discards_correction
                                  sample_externals reddened_series 2.5%float
                                  eq_refl)
                           reddened_series (Some (ndarray [10; 20; 40]%float))
                           eq_refl))).
  - exact (proj2 (@correct_extinction_discards_correction
                    sample_externals reddened 2.5%float eq_refl)
             [1; 2; 3]%float eq_refl).
Defined.

(** C8 at the sample table [log.txt]: one construction at redshift 3 with
    to_rest_frame disabled turns the configured interval [0.5, 10] into
    [2, 40]. *)
Lemma init_rescales_shared_interval :
  IVAR_INTERVALS wide_config = (0.5, 10)%float /\
  IVAR_INTERVALS
    (snd (@__init__ sample_externals "examples/log.txt" 3%float None true 2
            tab false wide_config))
    = (2, 40)%float.
Proof. split; reflexivity. Qed.

Lemma init_config_effect_witness :
  snd (@__init__ sample_externals "examples/log.txt" 3%float None true 2 tab
         true wide_config) = wide_config /\
  IVAR_INTERVALS
    (mkConfig (2, 40)%float (0, 10)%float)
    = scale_interval (IVAR_INTERVALS wide_config) (1 + 3)%float.
Proof.
  split.
  - exact (proj1 (proj2 (@init_config_effect sample_externals
                           "examples/log.txt" 3%float None true 2 tab true
                           wide_config)) eq_refl).
  - exact (proj2 (proj2 (proj2 (@init_config_effect sample_externals
                                  "examples/log.txt" 3%float None true 2 tab
                                  false wide_config))
                    (set_ivar
                       (set_wavelength log_state
                          (ndarray [10; 100; 1000]%float))
                       (ndarray [infinity; infinity; infinity]%float))
                    (mkConfig (2, 40)%float (0, 10)%float)
                    log_frame eq_refl eq_refl)
             eq_refl eq_refl).
Defined.

(** C9 at the path [examples/table.csv]: the loader returns None, and the
    caller sees a TypeError. *)
Lemma read_data_csv_returns_None :
  @read_data sample_externals "examples/table.csv" 2 tab = Ok None /\
  @__init__ sample_externals "examples/table.csv" 0%float None true 2 tab true
     wide_config = (Raise TypeError, wide_config).
Proof. split; reflexivity. Qed.

Lemma read_data_unsupported_extension_witness :
  endswith "spectrum.dat" ".txt" = false /\
  endswith "spectrum.dat" ".fits" = false /\
  @read_data sample_externals "spectrum.dat" 2 tab = Ok None.
Proof.
  split; [reflexivity|]. split; [reflexivity|].
  exact (proj1 (@read_data_unsupported_extension sample_externals
                  "spectrum.dat" 2 tab eq_refl eq_refl)).
Defined.

Lemma mask_dead_pixels_keeps_non_finite_witness :
  (exists self' iv',
     _mask_dead_pixels mixed_weights = Ok self' /\
     ivar self' = Some iv' /\
     values (wavelength self') = [1; 3]%float /\
     values (flux self') = [1; 4]%float /\
     values iv' = [nan; 2]%float) /\
  (exists self' iv',
     _mask_dead_pixels odd_weights = Ok self' /\
     ivar self' = Some iv' /\
     values (wavelength self') = [1; 3]%float /\
     values (flux self') = [1; 4]%float /\
     values iv' = [nan; infinity]%float) /\
  exists i,
    fst (@_calculate_ivar sample_externals flat_state wide_config) = Ok i /\
    Forall (fun x => is_finite x = false) (values i) /\
    _mask_dead_pixels (set_ivar flat_state i) = Ok (set_ivar flat_state i).
Proof.
  split; [|split].
  - destruct (proj1 (proj2 (@mask_dead_pixels_keeps_non_finite
                              sample_externals))
                mixed_weights (ndarray [nan; 0; 2]%float)
                eq_refl eq_refl eq_refl)
      as (self' & iv' & Hr & Hi & Ew & Ef & Ei & _).
    exists self', iv'. repeat split; assumption.
  - destruct (proj1 (proj2 (@mask_dead_pixels_keeps_non_finite
                              sample_externals))
                odd_weights (ndarray [nan; 0; infinity]%float)
                eq_refl eq_refl eq_refl)
      as (self' & iv' & Hr & Hi & Ew & Ef & Ei & _).
    exists self', iv'. repeat split; assumption.
  - exact (proj2 (proj2 (@mask_dead_pixels_keeps_non_finite sample_externals))
             flat_state wide_config flat_frame eq_refl eq_refl eq_refl eq_refl).
Defined.

(** * Masking and trimming *)

Section Selection.

Lemma getitem_mask_Ok_inv (a r : array) (mask : list bool) :
  getitem_mask a mask = Ok r ->
  length mask = len a /\ r = rebuild (compress mask) a.
Proof.
  unfold getitem_mask.
  destruct (Nat.eqb (length mask) (len a)) eqn:E; [|discriminate].
  intros [= <-]. apply Nat.eqb_eq in E. split; [exact E | reflexivity].
Qed.

Lemma getitem_mask_Raise (a : array) (mask : list bool) :
  length mask <> len a -> getitem_mask a mask = Raise IndexError.
Proof.
  intros H. unfold getitem_mask.
  destruct (Nat.eqb (length mask) (len a)) eqn:E; [|reflexivity].
  apply Nat.eqb_eq in E. contradiction.
Qed.

Lemma trim_mask_map (self : Spectrum) (cfg : Config) :
  trim_mask self cfg =
    map (in_interval (TRIM_INTERVALS cfg)) (values (wavelength self)).
Proof.
  unfold trim_mask, ge_scalar, le_scalar, in_interval.
  apply (mask_and_map (fun x => (fst (TRIM_INTERVALS cfg) <=? x)%float)
                      (fun x => (x <=? snd (TRIM_INTERVALS cfg))%float)).
Qed.

Lemma length_trim_mask (self : Spectrum) (cfg : Config) :
  length (trim_mask self cfg) = len (wavelength self).
Proof. rewrite trim_mask_map. apply length_map. Qed.

Lemma length_ne_scalar (a : array) (k : float) :
  length (ne_scalar a k) = len a.
Proof. unfold ne_scalar, len. apply length_map. Qed.

Lemma inside_kept (self : Spectrum) (cfg : Config) :
  kept (trim_mask self cfg) =
    inside (TRIM_INTERVALS cfg) (values (wavelength self)).
Proof.
  rewrite trim_mask_map. unfold inside.
  apply (kept_map (in_interval (TRIM_INTERVALS cfg)) nan).
Qed.

Lemma inside_In (w : float * float) (lam : list float) (k : nat) :
  In k (inside w lam) <->
  k < length lam /\ in_interval w (nth k lam nan) = true.
Proof.
  unfold inside, in_interval. rewrite filter_In, in_seq. simpl.
  split; intros [H1 H2]; split; try exact H2; lia.
Qed.

(** What trimming does to an object it accepts. *)
Lemma trim_data_run (self : Spectrum) (cfg : Config) (iv : array) :
  ivar self = Some iv ->
  len (wavelength self) = len iv ->
  len (flux self) = len iv ->
  _trim_data self cfg =
    Ok (set_ivar
          (set_flux
             (set_wavelength self
                (rebuild (compress (trim_mask self cfg)) (wavelength self)))
             (rebuild (compress (trim_mask self cfg)) (flux self)))
          (rebuild (compress (trim_mask self cfg)) iv)).
Proof.
  intros Hi Hw Hf. unfold _trim_data. fold (trim_mask self cfg).
  pose proof (length_trim_mask self cfg) as Hm.
  rewrite (getitem_mask_Ok (wavelength self)) by exact Hm. simpl.
  rewrite (getitem_mask_Ok (flux self)) by congruence. simpl.
  unfold get_ivar. simpl. rewrite Hi. simpl.
  rewrite (getitem_mask_Ok iv) by congruence. reflexivity.
Qed.

Lemma trim_data_complete (self self' : Spectrum) (cfg : Config) :
  _trim_data self cfg = Ok self' -> complete self.
Proof.
  unfold _trim_data. fold (trim_mask self cfg). intros H.
  pose proof (length_trim_mask self cfg) as Hm.
  apply bind_Ok in H. destruct H as [w [Hw H]].
  apply bind_Ok in H. destruct H as [f [Hf H]].
  apply bind_Ok in H. destruct H as [i [Hi H]].
  apply bind_Ok in H. destruct H as [i' [Hi' _]].
  apply getitem_mask_Ok_inv in Hf, Hi'. simpl in Hf.
  unfold get_ivar in Hi. simpl in Hi.
  destruct (ivar self) as [iv|] eqn:E; [|discriminate].
  injection Hi as <-. exists iv.
  destruct Hf as [Lf _]. destruct Hi' as [Li _].
  repeat split; congruence.
Qed.

Lemma mask_dead_pixels_complete (self self' : Spectrum) :
  _mask_dead_pixels self = Ok self' -> complete self.
Proof.
  unfold _mask_dead_pixels. intros H.
  apply bind_Ok in H. destruct H as [i [Hi H]].
  apply bind_Ok in H. destruct H as [f [Hf H]].
  apply bind_Ok in H. destruct H as [i1 [_ H]].
  apply bind_Ok in H. destruct H as [i' [_ H]].
  apply bind_Ok in H. destruct H as [w [Hw _]].
  apply getitem_mask_Ok_inv in Hf, Hw. simpl in Hw.
  unfold get_ivar in Hi.
  destruct (ivar self) as [iv|] eqn:E; [|discriminate].
  injection Hi as <-. exists iv.
  pose proof (length_ne_scalar iv 0%float) as Hm.
  destruct Hf as [Lf _]. destruct Hw as [Lw _].
  repeat split; congruence.
Qed.

(** X1: on an object whose three arrays have one length, trimming keeps, in
    wavelength, flux and ivar alike, exactly the samples at the indices whose
    wavelength lies in the configured trimming interval (bounds included), in
    their original order. *)
Theorem trim_data_keeps_interval (self : Spectrum) (cfg : Config) (iv : array) :
  ivar self = Some iv ->
  len (wavelength self) = len iv ->
  len (flux self) = len iv ->
  (forall k,
     In k (inside (TRIM_INTERVALS cfg) (values (wavelength self))) <->
     k < len (wavelength self) /\
     in_interval (TRIM_INTERVALS cfg)
       (nth k (values (wavelength self)) nan) = true) /\
  StronglySorted lt (inside (TRIM_INTERVALS cfg) (values (wavelength self))) /\
  exists self' iv',
    _trim_data self cfg = Ok self' /\
    ivar self' = Some iv' /\
    values (wavelength self') =
      take_at (inside (TRIM_INTERVALS cfg) (values (wavelength self)))
              (values (wavelength self)) /\
    values (flux self') =
      take_at (inside (TRIM_INTERVALS cfg) (values (wavelength self)))
              (values (flux self)) /\
    values iv' =
      take_at (inside (TRIM_INTERVALS cfg) (values (wavelength self)))
              (values iv).
Proof.
  intros Hi Hw Hf.
  split; [intros k; apply inside_In|].
  split; [apply filter_seq_sorted|].
  rewrite (trim_data_run self cfg Hi Hw Hf).
  pose proof (length_trim_mask self cfg) as Hm.
  do 2 eexists. split; [reflexivity|]. simpl. split; [reflexivity|].
  rewrite !values_rebuild. unfold take_at. rewrite <- inside_kept.
  unfold len in *.
  repeat split; apply compress_kept; congruence.
Qed.

Lemma compress_map_self {A : Type} (p : A -> bool) (l : list A) :
  compress (map p l) l = filter p l.
Proof.
  induction l as [|x l IH]; simpl; [reflexivity|].
  destruct (p x); rewrite IH; reflexivity.
Qed.

Lemma Forall_filter_true {A : Type} (p : A -> bool) (l : list A) :
  Forall (fun x => p x = true) (filter p l).
Proof.
  apply Forall_forall. intros x H. apply filter_In in H. apply H.
Qed.

Lemma len_compress (mask : list bool) (a b : array) :
  len a = len b ->
  len (rebuild (compress mask) a) = len (rebuild (compress mask) b).
Proof.
  unfold len. rewrite !values_rebuild. apply compress_same_length.
Qed.

(** Trimming an object that lies inside the interval changes nothing. *)
Lemma trim_data_noop (self : Spectrum) (cfg : Config) (iv : array) :
  ivar self = Some iv ->
  len (wavelength self) = len iv ->
  len (flux self) = len iv ->
  Forall (fun x => in_interval (TRIM_INTERVALS cfg) x = true)
         (values (wavelength self)) ->
  _trim_data self cfg = Ok self.
Proof.
  intros Hi Hw Hf Hin. rewrite (trim_data_run self cfg Hi Hw Hf).
  assert (Ht : Forall (fun b => b = true) (trim_mask self cfg)).
  { rewrite trim_mask_map. apply Forall_map. exact Hin. }
  pose proof (length_trim_mask self cfg) as Hm.
  unfold len in *.
  rewrite !rebuild_same by (apply compress_all_true; [congruence | exact Ht]).
  destruct self. simpl in *. subst. reflexivity.
Qed.

(** X2: trimming is idempotent: an object that [_trim_data] has returned is
    returned unchanged when it is trimmed again with the same
    configuration. *)
Theorem trim_data_idempotent (self self' : Spectrum) (cfg : Config) :
  _trim_data self cfg = Ok self' -> _trim_data self' cfg = Ok self'.
Proof.
  intros H. destruct (trim_data_complete _ _ H) as (iv & Hi & Hw & Hf).
  rewrite (trim_data_run self cfg Hi Hw Hf) in H. injection H as <-.
  apply (trim_data_noop _ cfg (iv := rebuild (compress (trim_mask self cfg)) iv)).
  - reflexivity.
  - simpl. apply len_compress. exact Hw.
  - simpl. apply len_compress. exact Hf.
  - simpl. rewrite values_rebuild, trim_mask_map, compress_map_self.
    apply Forall_filter_true.
Qed.

(** X3: dead-pixel masking is idempotent: an object that
    [_mask_dead_pixels] has returned has no zero-ivar pixel left and is
    returned unchanged when it is masked again. *)
Theorem mask_dead_pixels_idempotent (self self' : Spectrum) :
  _mask_dead_pixels self = Ok self' -> _mask_dead_pixels self' = Ok self'.
Proof.
  intros H. destruct (mask_dead_pixels_complete _ H) as (iv & Hi & Hw & Hf).
  rewrite (mask_dead_pixels_run self Hi Hw Hf) in H. injection H as <-.
  apply (mask_dead_pixels_noop _
           (iv := rebuild (compress (ne_scalar iv 0%float)) iv)).
  - reflexivity.
  - simpl. apply len_compress. exact Hw.
  - simpl. apply len_compress. exact Hf.
  - rewrite values_rebuild. unfold ne_scalar.
    rewrite (compress_map_self (fun x => negb (x =? 0)%float)).
    apply Forall_filter_true.
Qed.

Lemma compress_commute {A B C : Type} (p : A -> bool) (q : B -> bool)
  (W : list A) (I : list B) (X : list C) :
  length W = length I -> length W = length X ->
  compress (map p (compress (map q I) W)) (compress (map q I) X) =
  compress (map q (compress (map p W) I)) (compress (map p W) X).
Proof.
  revert I X. induction W as [|w W IH]; intros [|i I] [|x X] HI HX;
    simpl in *; try reflexivity; try discriminate.
  injection HI as HI. injection HX as HX.
  destruct (p w) eqn:Pw, (q i) eqn:Qi; simpl; rewrite ?Pw, ?Qi;
    rewrite (IH I X HI HX); reflexivity.
Qed.

Lemma rebuild_rebuild (f g : list float -> list float) (a : array) :
  rebuild f (rebuild g a) = rebuild (fun v => f (g v)) a.
Proof. destruct a; reflexivity. Qed.

Lemma rebuild_ext (f g : list float -> list float) (a : array) :
  f (values a) = g (values a) -> rebuild f a = rebuild g a.
Proof. destruct a; simpl; intros ->; reflexivity. Qed.

(** X4: on an object whose three arrays have one length, masking the dead
    pixels and trimming to the configured interval commute: either order
    gives the same object. *)
Theorem mask_trim_commute (self : Spectrum) (cfg : Config) (iv : array) :
  ivar self = Some iv ->
  len (wavelength self) = len iv ->
  len (flux self) = len iv ->
  bind (_mask_dead_pixels self) (fun s => _trim_data s cfg) =
  bind (_trim_data self cfg) _mask_dead_pixels.
Proof.
  intros Hi Hw Hf.
  rewrite (mask_dead_pixels_run self Hi Hw Hf).
  rewrite (trim_data_run self cfg Hi Hw Hf). simpl.
  rewrite (trim_data_run _ cfg
             (iv := rebuild (compress (ne_scalar iv 0%float)) iv))
    by (try reflexivity; simpl; apply len_compress; assumption).
  rewrite (mask_dead_pixels_run _
             (iv := rebuild (compress (trim_mask self cfg)) iv))
    by (try reflexivity; simpl; apply len_compress; assumption).
  f_equal. rewrite !trim_mask_map. simpl. unfold ne_scalar.
  rewrite !values_rebuild, !rebuild_rebuild.
  unfold len in *.
  assert (E : forall a : array,
             length (values (wavelength self)) = length (values a) ->
             rebuild
               (fun v =>
                  compress
                    (map (in_interval (TRIM_INTERVALS cfg))
                       (compress
                          (map (fun x => negb (x =? 0)%float) (values iv))
                          (values (wavelength self))))
                    (compress
                       (map (fun x => negb (x =? 0)%float) (values iv)) v)) a
             = rebuild
                 (fun v =>
                    compress
                      (map (fun x => negb (x =? 0)%float)
                         (compress
                            (map (in_interval (TRIM_INTERVALS cfg))
                               (values (wavelength self)))
                            (values iv)))
                      (compress
                         (map (in_interval (TRIM_INTERVALS cfg))
                            (values (wavelength self))) v)) a).
  { intros a La. apply rebuild_ext. apply compress_commute; congruence. }
  rewrite (E (wavelength self)) by reflexivity.
  rewrite (E (flux self)) by congruence.
  rewrite (E iv) by congruence.
  destruct self. reflexivity.
Qed.

(** X5: dead-pixel masking returns an object exactly when the ivar is
    assigned and the three arrays have one length; with no ivar assigned it
    raises AttributeError, and with a flux or a wavelength array of another
    length than the ivar it raises IndexError. *)
Theorem mask_dead_pixels_outcome (self : Spectrum) :
  ((exists self', _mask_dead_pixels self = Ok self') <-> complete self) /\
  (ivar self = None -> _mask_dead_pixels self = Raise AttributeError) /\
  (forall iv, ivar self = Some iv ->
     len (flux self) <> len iv \/ len (wavelength self) <> len iv ->
     _mask_dead_pixels self = Raise IndexError).
Proof.
  split; [split|split].
  - intros [self' H]. exact (mask_dead_pixels_complete _ H).
  - intros (iv & Hi & Hw & Hf).
    rewrite (mask_dead_pixels_run self Hi Hw Hf). eauto.
  - intros Hi. unfold _mask_dead_pixels, get_ivar. rewrite Hi. reflexivity.
  - intros iv Hi Hne. unfold _mask_dead_pixels, get_ivar. rewrite Hi. simpl.
    pose proof (length_ne_scalar iv 0%float) as Hm.
    destruct (Nat.eq_dec (len (flux self)) (len iv)) as [Ef | Nf].
    + rewrite (getitem_mask_Ok (flux self)) by congruence. simpl.
      rewrite Hi. simpl.
      rewrite (getitem_mask_Ok iv) by congruence. simpl.
      rewrite getitem_mask_Raise; [reflexivity|].
      destruct Hne as [N | N]; congruence.
    + rewrite getitem_mask_Raise by congruence. reflexivity.
Qed.

(** X6: trimming returns an object exactly when the ivar is assigned and
    the three arrays have one length; a flux array of another length than
    the wavelength raises IndexError, a missing ivar raises AttributeError
    (when the flux fits), and an ivar of another length raises IndexError. *)
Theorem trim_data_outcome (self : Spectrum) (cfg : Config) :
  ((exists self', _trim_data self cfg = Ok self') <-> complete self) /\
  (len (flux self) <> len (wavelength self) ->
     _trim_data self cfg = Raise IndexError) /\
  (len (flux self) = len (wavelength self) -> ivar self = None ->
     _trim_data self cfg = Raise AttributeError) /\
  (forall iv, len (flux self) = len (wavelength self) ->
     ivar self = Some iv -> len iv <> len (wavelength self) ->
     _trim_data self cfg = Raise IndexError).
Proof.
  pose proof (length_trim_mask self cfg) as Hm.
  split; [split|split; [|split]].
  - intros [self' H]. exact (trim_data_complete _ _ H).
  - intros (iv & Hi & Hw & Hf).
    rewrite (trim_data_run self cfg Hi Hw Hf). eauto.
  - intros N. unfold _trim_data. fold (trim_mask self cfg).
    rewrite (getitem_mask_Ok (wavelength self)) by exact Hm. simpl.
    rewrite getitem_mask_Raise by congruence. reflexivity.
  - intros Ef Hi. unfold _trim_data. fold (trim_mask self cfg).
    rewrite (getitem_mask_Ok (wavelength self)) by exact Hm. simpl.
    rewrite (getitem_mask_Ok (flux self)) by congruence. simpl.
    unfold get_ivar. simpl. rewrite Hi. reflexivity.
  - intros iv Ef Hi N. unfold _trim_data. fold (trim_mask self cfg).
    rewrite (getitem_mask_Ok (wavelength self)) by exact Hm. simpl.
    rewrite (getitem_mask_Ok (flux self)) by congruence. simpl.
    unfold get_ivar. simpl. rewrite Hi. simpl.
    rewrite getitem_mask_Raise by congruence. reflexivity.
Qed.

End Selection.

(** * The loader and the name *)

Section Strings.

Lemma length_append (p s : string) :
  String.length (p ++ s) = String.length p + String.length s.
Proof. induction p as [|a p IH]; simpl; [reflexivity | rewrite IH; reflexivity]. Qed.

Lemma substring_all (s : string) : substring 0 (String.length s) s = s.
Proof. induction s as [|a s IH]; simpl; [reflexivity | rewrite IH; reflexivity]. Qed.

Lemma substring_append (p s : string) :
  substring (String.length p) (String.length s) (p ++ s) = s.
Proof. induction p as [|a p IH]; simpl; [apply substring_all | exact IH]. Qed.

Lemma substring_split (s : string) (k : nat) :
  k <= String.length s ->
  s = (substring 0 k s ++ substring k (String.length s - k) s)%string.
Proof.
  revert k. induction s as [|a s IH]; intros [|k] H; simpl in *.
  - reflexivity.
  - lia.
  - rewrite substring_all. reflexivity.
  - f_equal. apply IH. lia.
Qed.

(** [endswith] holds exactly of the strings that are some prefix followed
    by the suffix. *)
Lemma endswith_spec (s suffix : string) :
  endswith s suffix = true <-> exists p, s = (p ++ suffix)%string.
Proof.
  unfold endswith. split.
  - intros H. apply andb_true_iff in H. destruct H as [Hle Heq].
    apply Nat.leb_le in Hle. apply String.eqb_eq in Heq.
    exists (substring 0 (String.length s - String.length suffix) s).
    assert (Hk : String.length s - String.length suffix <= String.length s)
      by lia.
    pose proof (@substring_split s _ Hk) as E.
    replace (String.length s - (String.length s - String.length suffix))
      with (String.length suffix) in E by lia.
    rewrite Heq in E. exact E.
  - intros [p ->]. rewrite length_append.
    replace (String.length p + String.length suffix - String.length suffix)
      with (String.length p) by lia.
    rewrite substring_append, String.eqb_refl, andb_true_r.
    apply Nat.leb_le. lia.
Qed.

Lemma lower_ascii_idem (a : ascii) : lower_ascii (lower_ascii a) = lower_ascii a.
Proof.
  destruct a as [[] [] [] [] [] [] [] []]; vm_compute; reflexivity.
Qed.

Lemma lower_idem (s : string) : lower (lower s) = lower s.
Proof.
  induction s as [|a s IH]; simpl; [reflexivity|].
  rewrite lower_ascii_idem, IH. reflexivity.
Qed.

End Strings.

Section Loader.

Context {ext : Externals}.

Lemma append_assoc' (a b c : string) :
  ((a ++ b) ++ c)%string = (a ++ (b ++ c))%string.
Proof. induction a as [|x a IH]; simpl; [reflexivity | rewrite IH; reflexivity]. Qed.

Lemma endswith_fits_not_txt (p : string) :
  endswith (p ++ ".fits") ".txt" = false.
Proof.
  change ".fits"%string with ("." ++ "fits")%string.
  rewrite <- append_assoc'. unfold endswith. rewrite length_append.
  change (String.length ".txt") with (String.length "fits").
  replace (String.length (p ++ ".") + String.length "fits"
           - String.length "fits")
    with (String.length (p ++ ".")) by lia.
  rewrite (substring_append (p ++ ".") "fits"). apply andb_false_r.
Qed.

Lemma bind_Some_not_None {A : Type} (r : result A) :
  bind r (fun a => Ok (Some a)) <> Ok None.
Proof. destruct r; simpl; discriminate. Qed.

(** X9: the loader dispatches on the end of the path: a path that is some
    prefix followed by ".txt" is read by [read_txt], one followed by ".fits"
    by [read_fits], and None is returned for exactly the paths that are
    neither. *)
Theorem read_data_dispatch (skiprows : nat) (separator : string) :
  (forall p,
     read_data (p ++ ".txt") skiprows separator =
       bind (read_txt (p ++ ".txt") skiprows separator)
            (fun df => Ok (Some df))) /\
  (forall p,
     read_data (p ++ ".fits") skiprows separator =
       bind (read_fits (p ++ ".fits")) (fun df => Ok (Some df))) /\
  (forall path,
     read_data path skiprows separator = Ok None <->
     ~ (exists p, path = (p ++ ".txt")%string) /\
     ~ (exists p, path = (p ++ ".fits")%string)).
Proof.
  split; [|split].
  - intros p. unfold read_data.
    rewrite (proj2 (endswith_spec (p ++ ".txt") ".txt")) by eauto.
    reflexivity.
  - intros p. unfold read_data.
    rewrite endswith_fits_not_txt.
    rewrite (proj2 (endswith_spec (p ++ ".fits") ".fits")) by eauto.
    reflexivity.
  - intros path. rewrite <- !endswith_spec. unfold read_data.
    destruct (endswith path ".txt") eqn:T.
    + split; [intros H; exfalso; exact (bind_Some_not_None _ H)|].
      intros [N _]. exfalso. apply N. reflexivity.
    + destruct (endswith path ".fits") eqn:F.
      * split; [intros H; exfalso; exact (bind_Some_not_None _ H)|].
        intros [_ N]. exfalso. apply N. reflexivity.
      * split; [intros _; split; discriminate | reflexivity].
Qed.

(** X7: a text file is accepted exactly when [read_csv] finds two columns:
    the frame returned has the labels lambda and flux, in this order, over
    the rows as read, and no ivar column; any other number of columns raises
    ValueError, and an error of the reader is passed on. *)
Theorem read_txt_outcome (path : string) (skiprows : nat) (separator : string) :
  (forall e, pd_read_csv path separator skiprows = Raise e ->
     read_txt path skiprows separator = Raise e) /\
  (forall df, pd_read_csv path separator skiprows = Ok df ->
     length (columns df) <> 2 ->
     read_txt path skiprows separator = Raise ValueError) /\
  (forall df, pd_read_csv path separator skiprows = Ok df ->
     length (columns df) = 2 ->
     read_txt path skiprows separator
       = Ok (mkDataFrame ["lambda"; "flux"]%string (rows df)) /\
     getitem (mkDataFrame ["lambda"; "flux"]%string (rows df)) "lambda"
       = Ok (Series (map (fun r => nth 0 r nan) (rows df))) /\
     getitem (mkDataFrame ["lambda"; "flux"]%string (rows df)) "flux"
       = Ok (Series (map (fun r => nth 1 r nan) (rows df))) /\
     has_column (mkDataFrame ["lambda"; "flux"]%string (rows df)) "ivar"
       = false).
Proof.
  unfold read_txt, set_columns. split; [|split].
  - intros e H. rewrite H. reflexivity.
  - intros df H N. rewrite H. simpl.
    destruct (length (columns df)) as [|[|[|n]]]; try reflexivity.
    contradiction.
  - intros df H E. rewrite H. simpl. rewrite E. simpl.
    repeat split; reflexivity.
Qed.

Lemma fits_label_not_loglam (c : string) : fits_label c <> "loglam"%string.
Proof.
  unfold fits_label. destruct (String.eqb (lower c) "loglam") eqn:E.
  - discriminate.
  - apply String.eqb_neq. exact E.
Qed.

Lemma fits_label_lower (c : string) : lower (fits_label c) = fits_label c.
Proof.
  unfold fits_label. destruct (String.eqb (lower c) "loglam");
    [reflexivity | apply lower_idem].
Qed.

Lemma fits_label_other (c key : string) :
  key <> "loglam"%string -> key <> "lambda"%string ->
  (fits_label c = key <-> lower c = key).
Proof.
  intros N1 N2. unfold fits_label.
  destruct (String.eqb (lower c) "loglam") eqn:E.
  - apply String.eqb_eq in E. split; intros H; congruence.
  - reflexivity.
Qed.

Lemma fits_label_lambda (c : string) :
  fits_label c = "lambda"%string <->
  lower c = "lambda"%string \/ lower c = "loglam"%string.
Proof.
  unfold fits_label. destruct (String.eqb (lower c) "loglam") eqn:E.
  - apply String.eqb_eq in E. split; auto.
  - apply String.eqb_neq in E. split; [auto|]. intros [H | H]; congruence.
Qed.

Lemma has_column_In (df : DataFrame) (key : string) :
  has_column df key = true <-> In key (columns df).
Proof.
  unfold has_column. rewrite existsb_exists. split.
  - intros [c [Hc E]]. apply String.eqb_eq in E. subst. exact Hc.
  - intros H. exists key. split; [exact H | apply String.eqb_refl].
Qed.

Lemma read_fits_run (path : string) (df : DataFrame) :
  Table_read path = Ok df ->
  read_fits path = Ok (mkDataFrame (map fits_label (columns df)) (rows df)).
Proof.
  intros H. unfold read_fits, set_columns, rename_column. rewrite H. simpl.
  rewrite length_map, Nat.eqb_refl. simpl. rewrite map_map. reflexivity.
Qed.

(** X8: reading a binary table adds no failure of its own and keeps the
    rows; every label is lower-cased and a label that lower-cases to loglam
    becomes lambda.  So the frame never has a loglam column, all its labels
    are lower-case, it has a lambda column exactly when the table had a
    label spelling lambda or loglam in any letter case, and any other column
    (ivar, flux) exactly when the table had a label lower-casing to it. *)
Theorem read_fits_labels (path : string) :
  (forall e, Table_read path = Raise e -> read_fits path = Raise e) /\
  (forall df, Table_read path = Ok df ->
     exists df',
       read_fits path = Ok df' /\
       rows df' = rows df /\
       columns df' = map fits_label (columns df) /\
       has_column df' "loglam" = false /\
       Forall (fun c => lower c = c) (columns df') /\
       (has_column df' "lambda" = true <->
        exists c, In c (columns df) /\
                  (lower c = "lambda"%string \/ lower c = "loglam"%string)) /\
       (forall key,
          key <> "loglam"%string -> key <> "lambda"%string ->
          (has_column df' key = true <->
           exists c, In c (columns df) /\ lower c = key))).
Proof.
  split.
  - intros e H. unfold read_fits. rewrite H. reflexivity.
  - intros df H. rewrite (read_fits_run path H).
    eexists. split; [reflexivity|]. simpl.
    split; [reflexivity|]. split; [reflexivity|]. split; [|split; [|split]].
    + destruct (has_column _ "loglam") eqn:E; [|reflexivity].
      apply has_column_In in E. simpl in E. apply in_map_iff in E.
      destruct E as [c [E _]]. exfalso. exact (fits_label_not_loglam c E).
    + apply Forall_forall. intros c Hc. apply in_map_iff in Hc.
      destruct Hc as [c0 [<- _]]. apply fits_label_lower.
    + rewrite has_column_In. simpl. rewrite in_map_iff.
      split; intros [c [E Hc]]; exists c.
      * split; [exact Hc | apply fits_label_lambda, E].
      * split; [apply fits_label_lambda, Hc | exact E].
    + intros key N1 N2. rewrite has_column_In. simpl. rewrite in_map_iff.
      split; intros [c [E Hc]]; exists c.
      * split; [exact Hc | apply (fits_label_other c N1 N2), E].
      * split; [apply (fits_label_other c N1 N2), Hc | exact E].
Qed.

End Loader.

Section Names.

Lemma split_not_nil (c : ascii) (s : string) : split c s <> [].
Proof.
  destruct s as [|a s]; simpl; [discriminate|].
  destruct (Ascii.eqb a c); [discriminate|].
  destruct (split c s); discriminate.
Qed.

(** A string without the separator is its own only field. *)
Lemma split_absent (c : ascii) (s : string) :
  contains c s = false -> split c s = [s].
Proof.
  induction s as [|a s IH]; simpl; [reflexivity|].
  intros H. apply orb_false_iff in H. destruct H as [Ha Hs].
  rewrite Ha, (IH Hs). reflexivity.
Qed.

(** The first field ends at the first separator. *)
Lemma split_first (c : ascii) (a b : string) :
  contains c a = false ->
  split c (a ++ String c b) = a :: split c b.
Proof.
  induction a as [|x a IH]; simpl.
  - intros _. rewrite Ascii.eqb_refl. reflexivity.
  - intros H. apply orb_false_iff in H. destruct H as [Hx Ha].
    rewrite Hx, (IH Ha). reflexivity.
Qed.

(** A string that holds the separator has at least two fields. *)
Lemma split_two (c : ascii) (d r : string) :
  exists w w' ws, split c (d ++ String c r) = w :: w' :: ws.
Proof.
  induction d as [|x d IH]; simpl.
  - rewrite Ascii.eqb_refl.
    destruct (split c r) as [|w ws] eqn:E;
      [exfalso; exact (split_not_nil _ _ E) | eauto].
  - destruct IH as (w & w' & ws & E). rewrite E.
    destruct (Ascii.eqb x c); eauto.
Qed.

(** The last field starts after the last separator. *)
Lemma last_split_after (c : ascii) (d r : string) :
  last (split c (d ++ String c r)) EmptyString = last (split c r) EmptyString.
Proof.
  induction d as [|x d IH]; simpl.
  - rewrite Ascii.eqb_refl.
    destruct (split c r) eqn:E; [exfalso; exact (split_not_nil _ _ E)|].
    reflexivity.
  - destruct (split_two c d r) as (w & w' & ws & E).
    rewrite E in *. destruct (Ascii.eqb x c); exact IH.
Qed.

(** No field holds the separator, and a character absent from the string is
    absent from every field. *)
Lemma split_fields (c d : ascii) (s : string) :
  Forall (fun w => contains c w = false /\
                   (contains d s = false -> contains d w = false))
         (split c s).
Proof.
  induction s as [|a s IH]; simpl.
  - constructor; [split; reflexivity | constructor].
  - destruct (Ascii.eqb a c) eqn:E.
    + constructor; [split; reflexivity|].
      eapply Forall_impl; [|exact IH]. simpl. intros w [H1 H2].
      split; [exact H1|]. intros H. apply orb_false_iff in H. apply H2, H.
    + destruct (split c s) as [|w ws] eqn:Es;
        [exfalso; exact (split_not_nil _ _ Es)|].
      inversion IH as [|? ? [H1 H2] Hws]; subst.
      constructor.
      * simpl. rewrite E, H1. split; [reflexivity|].
        intros H. apply orb_false_iff in H. destruct H as [Ha Hs].
        rewrite Ha. simpl. exact (H2 Hs).
      * eapply Forall_impl; [|exact Hws]. simpl. intros v [G1 G2].
        split; [exact G1|]. intros H. apply orb_false_iff in H. apply G2, H.
Qed.

Lemma last_In {A : Type} (l : list A) (d : A) : l <> [] -> In (last l d) l.
Proof.
  induction l as [|x l IH]; [congruence|]. intros _.
  destruct l as [|y l]; [left; reflexivity|].
  right. apply IH. discriminate.
Qed.

Lemma hd_In {A : Type} (l : list A) (d : A) : l <> [] -> In (hd d l) l.
Proof. destruct l; [congruence | intros _; left; reflexivity]. Qed.

(** X10: the name of a Spectrum is the part of the file's base name before
    its first dot: it never holds a slash or a dot, and for a path
    dir/base.ext, or base.ext, whose base holds neither and whose ext holds no
    slash, it is base. *)
Theorem stem_base_name :
  (forall path,
     contains "/" (stem path) = false /\ contains "." (stem path) = false) /\
  (forall dir base rest,
     contains "/" base = false -> contains "." base = false ->
     contains "/" rest = false ->
     stem (dir ++ String "/" (base ++ String "." rest)) = base /\
     stem (base ++ String "." rest) = base /\
     stem (dir ++ String "/" base) = base /\
     stem base = base).
Proof.
  split.
  - intros path. unfold stem.
    pose proof (split_fields "/" "/" path) as F1.
    rewrite Forall_forall in F1.
    destruct (F1 _ (last_In EmptyString (@split_not_nil "/" path)))
      as [Hslash _].
    pose proof (split_fields "." "/" (last (split "/" path) EmptyString)) as F2.
    rewrite Forall_forall in F2.
    destruct (F2 _ (hd_In EmptyString (@split_not_nil "." _))) as [Hdot H].
    split; [exact (H Hslash) | exact Hdot].
  - intros dir base rest Hb1 Hb2 Hr.
    assert (Hbr : contains "/" (base ++ String "." rest) = false).
    { clear Hb2. induction base as [|x b IH]; simpl in *.
      - exact Hr.
      - apply orb_false_iff in Hb1. destruct Hb1 as [Hx Hb].
        rewrite Hx. simpl. exact (IH Hb). }
    unfold stem. rewrite !last_split_after.
    rewrite (split_absent "/" _ Hbr), (split_absent "/" _ Hb1). simpl.
    rewrite (split_first "." base rest Hb2), (split_absent "." _ Hb2).
    repeat split; reflexivity.
Qed.

End Names.

(** * Delinearization at the edges *)

Section Delinearization.

Context {ext : Externals}.

Lemma is_nan_true (x : float) : is_nan x = true -> Prim2SF x = S754_nan.
Proof.
  unfold is_nan. rewrite eqb_spec. intros H.
  apply negb_true_iff, SFeqb_irrefl_nan in H. exact H.
Qed.

(** NaN is below nothing and nothing is below NaN. *)
Lemma nan_leb (x y : float) : is_nan x = true -> (x <=? y)%float = false.
Proof.
  intros H. rewrite leb_spec, (is_nan_true _ H). reflexivity.
Qed.

Lemma nan_ltb (x y : float) : is_nan x = true -> (x <? y)%float = false.
Proof.
  intros H. rewrite ltb_spec, (is_nan_true _ H). reflexivity.
Qed.

(** [np.maximum] propagates NaN from either side. *)
Lemma np_maximum_nan (x y : float) :
  is_nan x = true \/ is_nan y = true -> is_nan (np_maximum x y) = true.
Proof.
  unfold np_maximum. destruct (is_nan x) eqn:Hx.
  - intros _. rewrite orb_true_r. exact Hx.
  - intros [H | H]; [discriminate|].
    rewrite (nan_leb y x H). simpl. exact H.
Qed.

Lemma fold_np_maximum_nan (xs : list float) (a : float) :
  is_nan a = true \/ Exists (fun x => is_nan x = true) xs ->
  is_nan (fold_left np_maximum xs a) = true.
Proof.
  revert a. induction xs as [|y ys IH]; intros a H; simpl.
  - destruct H as [H | H]; [exact H | inversion H].
  - apply IH. destruct H as [H | H].
    + left. apply np_maximum_nan. left. exact H.
    + inversion H as [? ? Hy | ? ? Hys]; subst.
      * left. apply np_maximum_nan. right. exact Hy.
      * right. exact Hys.
Qed.

(** The maximum of an array that holds a NaN is NaN. *)
Lemma np_max_nan (a : array) :
  Exists (fun x => is_nan x = true) (values a) ->
  exists m, np_max a = Ok m /\ is_nan m = true.
Proof.
  unfold np_max. destruct (values a) as [|x xs]; intros H; [inversion H|].
  eexists. split; [reflexivity|]. apply fold_np_maximum_nan.
  inversion H; subst; auto.
Qed.

(** X11: an empty wavelength array stops delinearization: with the stage
    enabled, np.max of the empty array raises ValueError; so constructing
    with delinearization enabled from a table that has the lambda and flux
    columns and no row raises ValueError, before the extinction stage and
    with the configuration untouched. *)
Theorem linearize_wavelength_empty :
  (forall self,
     linearize_wavelength self = true ->
     values (wavelength self) = [] ->
     _linearize_wavelength self = Raise ValueError) /\
  (forall path z a_v skiprows separator to_rest cfg df,
     read_data path skiprows separator = Ok (Some df) ->
     rows df = [] ->
     has_column df "lambda" = true ->
     has_column df "flux" = true ->
     __init__ path z a_v true skiprows separator to_rest cfg
       = (Raise ValueError, cfg)).
Proof.
  split.
  - intros self Hl He. unfold _linearize_wavelength, np_max.
    rewrite Hl, He. reflexivity.
  - intros path z a_v skiprows separator to_rest cfg df Hr He Hlam Hflx.
    unfold __init__, load. rewrite Hr. simpl.
    destruct (has_column_getitem df "lambda" Hlam) as (j & _ & ->).
    destruct (has_column_getitem df "flux" Hflx) as (k & _ & ->).
    simpl. rewrite He. reflexivity.
Qed.

(** X12: a wavelength array that holds a NaN is never delinearized: np.max
    is then NaN, NaN is not below 5, and the object is returned as it is,
    whatever its other samples are. *)
Theorem linearize_wavelength_nan (self : Spectrum) :
  Exists (fun x => is_nan x = true) (values (wavelength self)) ->
  _linearize_wavelength self = Ok self.
Proof.
  intros H. unfold _linearize_wavelength.
  destruct (linearize_wavelength self); [|reflexivity].
  destruct (np_max_nan _ H) as (m & -> & Hm). simpl.
  rewrite (nan_ltb m 5 Hm). reflexivity.
Qed.

End Delinearization.

(** * The constructed object *)

Section Construction.

Context {ext : Externals}.

Lemma length_compress_le {A : Type} (mask : list bool) (a : list A) :
  length (compress mask a) <= length a.
Proof.
  revert a. induction mask as [|m ms IH]; intros [|x xs]; simpl; try lia.
  specialize (IH xs). destruct m; simpl; lia.
Qed.

Lemma compress_repeat_true {A : Type} (n : nat) (a : list A) :
  length a = n -> compress (repeat true n) a = a.
Proof.
  revert a. induction n as [|n IH]; intros [|x xs] H; simpl in *;
    try reflexivity; try discriminate.
  f_equal. apply IH. lia.
Qed.

Lemma compress_repeat_false {A : Type} (n : nat) (a : list A) :
  compress (repeat false n) a = [].
Proof.
  revert a. induction n as [|n IH]; intros [|x xs]; simpl; auto.
Qed.

Lemma getitem_missing (df : DataFrame) (key : string) :
  has_column df key = false -> getitem df key = Raise KeyError.
Proof.
  unfold has_column, getitem.
  induction (columns df) as [|l ls IH]; simpl; [reflexivity|].
  destruct (String.eqb key l); simpl; [discriminate|].
  intros H. specialize (IH H).
  destruct (index_of key ls); [discriminate | reflexivity].
Qed.

(** The object the constructor hands to the ivar stage, in terms of the
    columns it loaded. *)
Lemma init_stages (path : string) (z : float) (a_v : option float)
  (linearize : bool) (skiprows : nat) (separator : string) (to_rest : bool)
  (cfg cfg' : Config) (self : Spectrum) :
  __init__ path z a_v linearize skiprows separator to_rest cfg = (Ok self, cfg') ->
  exists df lam flx wl1 i,
    read_data path skiprows separator = Ok (Some df) /\
    getitem df "lambda" = Ok lam /\
    getitem df "flux" = Ok flx /\
    (wl1 = values lam \/
     linearize = true /\ wl1 = map (np_power 10) (values lam)) /\
    _calculate_ivar
      (_to_rest_frame
         (mkSpectrum path (stem path) (Some df) (ndarray wl1)
            (ndarray (values flx)) z to_rest linearize a_v to_rest None))
      cfg = (Ok i, cfg') /\
    _mask_dead_pixels
      (set_ivar
         (_to_rest_frame
            (mkSpectrum path (stem path) (Some df) (ndarray wl1)
               (ndarray (values flx)) z to_rest linearize a_v to_rest None))
         i) = Ok self.
Proof.
  intros H. apply init_inv in H.
  destruct H as (self0 & self1 & self2 & r & i & H0 & H1 & H2 & H3 & H4).
  apply load_inv in H0. destruct H0 as (df & lam & flx & Hr & Hl & Hf & ->).
  apply correct_extinction_same in H2. subst self2.
  assert (E : exists wl1,
             (wl1 = values lam \/
              linearize = true /\ wl1 = map (np_power 10) (values lam)) /\
             self1 = mkSpectrum path (stem path) (Some df) (ndarray wl1)
                       (ndarray (values flx)) z to_rest linearize a_v
                       to_rest None).
  { revert H1. unfold _linearize_wavelength. simpl.
    destruct linearize.
    - destruct (np_max (dot_values lam)) as [m|e]; simpl; [|discriminate].
      destruct (m <? 5)%float; intros [= <-].
      + exists (map (np_power 10) (values lam)). split; [auto | reflexivity].
      + exists (values lam). split; [auto | reflexivity].
    - intros [= <-]. exists (values lam). split; [auto | reflexivity]. }
  destruct E as (wl1 & Hwl & ->).
  exists df, lam, flx, wl1, i. repeat split; assumption.
Qed.

Lemma to_rest_frame_held (path name : string) (d : option DataFrame)
  (wl fl : list float) (z : float) (rest lin : bool) (a_v : option float)
  (to_rest : bool) (iv : option array) :
  _to_rest_frame
    (mkSpectrum path name d (ndarray wl) (ndarray fl) z rest lin a_v to_rest iv)
  = mkSpectrum path name d
      (ndarray (if to_rest then map (fun w => (w / (1 + z))%float) wl else wl))
      (ndarray (if to_rest then map (fun f => (f * (1 + z))%float) fl else fl))
      z rest lin a_v to_rest iv.
Proof. unfold _to_rest_frame. simpl. destruct to_rest; reflexivity. Qed.

(** The constructed object, read off the run of the last stage. *)
Lemma init_result (path : string) (z : float) (a_v : option float)
  (linearize : bool) (skiprows : nat) (separator : string) (to_rest : bool)
  (cfg cfg' : Config) (self : Spectrum) :
  __init__ path z a_v linearize skiprows separator to_rest cfg = (Ok self, cfg') ->
  exists df lam flx wl1 i,
    read_data path skiprows separator = Ok (Some df) /\
    getitem df "lambda" = Ok lam /\
    getitem df "flux" = Ok flx /\
    (wl1 = values lam \/
     linearize = true /\ wl1 = map (np_power 10) (values lam)) /\
    _calculate_ivar
      (mkSpectrum path (stem path) (Some df)
         (ndarray (if to_rest then map (fun w => (w / (1 + z))%float) wl1
                   else wl1))
         (ndarray (if to_rest
                   then map (fun f => (f * (1 + z))%float) (values flx)
                   else values flx))
         z to_rest linearize a_v to_rest None)
      cfg = (Ok i, cfg') /\
    length wl1 = length (rows df) /\
    len i = length (rows df) /\
    self =
      mkSpectrum path (stem path) (Some df)
        (ndarray (compress (ne_scalar i 0%float)
                    (if to_rest then map (fun w => (w / (1 + z))%float) wl1
                     else wl1)))
        (ndarray (compress (ne_scalar i 0%float)
                    (if to_rest
                     then map (fun f => (f * (1 + z))%float) (values flx)
                     else values flx)))
        z to_rest linearize a_v to_rest
        (Some (rebuild (compress (ne_scalar i 0%float)) i)).
Proof.
  intros H. apply init_stages in H.
  destruct H as (df & lam & flx & wl1 & i & Hr & Hl & Hf & Hwl & H3 & H4).
  rewrite to_rest_frame_held in H3, H4.
  exists df, lam, flx, wl1, i.
  repeat (split; [assumption|]).
  assert (L1 : length wl1 = length (rows df)).
  { apply getitem_len in Hl. unfold len in Hl.
    destruct Hwl as [-> | [_ ->]]; rewrite ?length_map; exact Hl. }
  split; [exact L1|].
  destruct (mask_dead_pixels_complete _ H4) as (iv & Hi & Lw & Lf).
  simpl in Hi, Lw, Lf. injection Hi as <-.
  assert (Li : len i = length (rows df)).
  { rewrite <- Lw, <- L1. unfold len. simpl.
    destruct to_rest; rewrite ?length_map; reflexivity. }
  split; [exact Li|].
  match type of H4 with
  | _mask_dead_pixels ?s = _ =>
      rewrite (@mask_dead_pixels_run s i eq_refl Lw Lf) in H4
  end.
  injection H4 as <-. reflexivity.
Qed.

(** Delinearization of an object as the constructor holds it. *)
Lemma linearize_wavelength_held (path name : string) (d : option DataFrame)
  (lamv flv : list float) (z : float) (rest lin : bool) (a_v : option float)
  (to_rest : bool) (iv : option array) (s1 : Spectrum) :
  _linearize_wavelength
    (mkSpectrum path name d (ndarray lamv) (ndarray flv) z rest lin a_v
       to_rest iv) = Ok s1 ->
  exists wl1,
    s1 = mkSpectrum path name d (ndarray wl1) (ndarray flv) z rest lin a_v
           to_rest iv /\
    (lin = false -> wl1 = lamv) /\
    (lin = true ->
     exists m, np_max (ndarray lamv) = Ok m /\
               wl1 = if (m <? 5)%float then map (np_power 10) lamv else lamv).
Proof.
  unfold _linearize_wavelength. simpl. destruct lin.
  - destruct (np_max (ndarray lamv)) as [m|e] eqn:Hm; simpl; [|discriminate].
    destruct (m <? 5)%float eqn:Hlt; intros [= <-]; eexists;
      (split; [reflexivity|]); (split; [discriminate|]);
      intros _; exists m; rewrite Hlt; split; reflexivity.
  - intros [= <-]. exists lamv. split; [reflexivity|].
    split; [reflexivity | discriminate].
Qed.

(** X13: what a successful construction returns from a table whose labels
    are distinct, array by array.  The wavelength is the loaded lambda
    column, each w replaced by 10**w when delinearization is enabled and
    np.max is below 5, divided by 1+z in rest frame, read at the pixels whose
    ivar is not zero; the flux is the loaded flux column, multiplied by 1+z
    in rest frame, at the same pixels; the ivar is the ivar of those pixels,
    where the ivar before masking is the table's ivar column or, without
    one, 1/variance of the flux whose wavelength lies in [lo, hi] (in
    [lo*(1+z), hi*(1+z)] in the observed frame), once per row; path, name,
    redshift and flags are the arguments. *)
Theorem init_returns (path : string) (z : float) (a_v : option float)
  (linearize : bool) (skiprows : nat) (separator : string) (to_rest : bool)
  (cfg cfg' : Config) (self : Spectrum) (df : DataFrame) (lo hi : float) :
  read_data path skiprows separator = Ok (Some df) ->
  NoDup (columns df) ->
  IVAR_INTERVALS cfg = (lo, hi) ->
  __init__ path z a_v linearize skiprows separator to_rest cfg = (Ok self, cfg') ->
  exists lam flx wl1 wl3 fl3 i i',
    getitem df "lambda" = Ok lam /\
    getitem df "flux" = Ok flx /\
    (linearize = false -> wl1 = values lam) /\
    (linearize = true ->
     exists m, np_max (ndarray (values lam)) = Ok m /\
               wl1 = if (m <? 5)%float
                     then map (np_power 10) (values lam) else values lam) /\
    wl3 = (if to_rest then map (fun w => (w / (1 + z))%float) wl1 else wl1) /\
    fl3 = (if to_rest then map (fun f => (f * (1 + z))%float) (values flx)
           else values flx) /\
    (has_column df "ivar" = true -> getitem df "ivar" = Ok i) /\
    (has_column df "ivar" = false ->
     i = ndarray
           (repeat
              (1 / np_var
                     (map snd
                        (filter
                           (fun p =>
                              ((if to_rest then lo else lo * (1 + z)) <=? fst p)%float
                              && (fst p <=? (if to_rest then hi else hi * (1 + z)))%float)
                           (combine wl3 fl3))))%float
              (length (rows df)))) /\
    file_path self = path /\ name self = stem path /\
    data self = Some df /\ redshift self = z /\
    rest_frame self = to_rest /\ to_rest_frame self = to_rest /\
    linearize_wavelength self = linearize /\
    ivar self = Some i' /\
    values (wavelength self) = take_at (alive (values i)) wl3 /\
    values (flux self) = take_at (alive (values i)) fl3 /\
    values i' = take_at (alive (values i)) (values i).
Proof.
  intros Hr _ HI H. apply init_inv in H.
  destruct H as (self0 & self1 & self2 & r & i & H0 & H1 & H2 & H3 & H4).
  apply load_inv in H0. destruct H0 as (df0 & lam & flx & Hr0 & Hl & Hf & ->).
  rewrite Hr in Hr0. injection Hr0 as <-.
  apply correct_extinction_same in H2. subst self2.
  unfold dot_values in H1.
  apply linearize_wavelength_held in H1.
  destruct H1 as (wl1 & -> & Hoff & Hon).
  rewrite to_rest_frame_held in H3, H4.
  remember (if to_rest then map (fun w => (w / (1 + z))%float) wl1 else wl1)
    as wl3 eqn:E3.
  remember (if to_rest then map (fun f => (f * (1 + z))%float) (values flx)
            else values flx) as fl3 eqn:F3.
  assert (L1 : length wl1 = length (rows df)).
  { apply getitem_len in Hl. unfold len in Hl.
    destruct linearize.
    - destruct (Hon eq_refl) as (m & _ & ->).
      destruct (m <? 5)%float; rewrite ?length_map; exact Hl.
    - rewrite (Hoff eq_refl). exact Hl. }
  assert (Lf : length (values flx) = length (rows df)).
  { apply getitem_len in Hf. exact Hf. }
  assert (L3 : length wl3 = length (rows df)).
  { rewrite E3. destruct to_rest; rewrite ?length_map; exact L1. }
  assert (G3 : length fl3 = length (rows df)).
  { rewrite F3. destruct to_rest; rewrite ?length_map; exact Lf. }
  destruct (mask_dead_pixels_complete _ H4) as (iv & Hi & Lw & Lfi).
  simpl in Hi, Lw, Lfi. injection Hi as <-.
  match type of H4 with
  | _mask_dead_pixels ?s = _ =>
      rewrite (@mask_dead_pixels_run s i eq_refl Lw Lfi) in H4
  end.
  injection H4 as <-.
  exists lam, flx, wl1, wl3, fl3, i, (rebuild (compress (ne_scalar i 0%float)) i).
  split; [exact Hl|]. split; [exact Hf|].
  split; [exact Hoff|]. split; [exact Hon|].
  split; [exact E3|]. split; [exact F3|].
  split.
  { intros Hc.
    match type of H3 with
    | _calculate_ivar ?s _ = _ =>
        rewrite (@calculate_ivar_column ext s cfg df eq_refl Hc) in H3
    end.
    injection H3 as E _. exact E. }
  split.
  { intros Hc.
    match type of H3 with
    | _calculate_ivar ?s _ = _ =>
        rewrite (@calculate_ivar_estimate ext s cfg df eq_refl Hc) in H3
          by (unfold len; simpl; congruence);
        pose proof (@window_rest s cfg lo hi HI) as WR;
        pose proof (@window_observed s cfg lo hi HI) as WO
    end.
    simpl in WR, WO. injection H3 as <- _.
    unfold np_full, len, continuum_of. simpl. rewrite L3.
    clear E3 F3.
    destruct to_rest; [rewrite (WR eq_refl) | rewrite (WO eq_refl)];
      reflexivity. }
  simpl. repeat (split; [reflexivity|]).
  pose proof (length_ne_scalar i 0%float) as Hm.
  unfold take_at. rewrite <- alive_kept, values_rebuild. unfold len in *.
  simpl in Lw, Lfi.
  repeat split; apply compress_kept; congruence.
Qed.

(** X14: the object a successful construction returns has no dead pixel:
    every ivar it holds is different from zero; and it has at most as many
    pixels as the table has rows. *)
Theorem init_leaves_no_dead_pixel (path : string) (z : float)
  (a_v : option float) (linearize : bool) (skiprows : nat)
  (separator : string) (to_rest : bool) (cfg cfg' : Config) (self : Spectrum) :
  __init__ path z a_v linearize skiprows separator to_rest cfg = (Ok self, cfg') ->
  exists df i',
    data self = Some df /\ ivar self = Some i' /\
    Forall (fun x => (x =? 0)%float = false) (values i') /\
    len i' <= length (rows df).
Proof.
  intros H. apply init_result in H.
  destruct H as (df & lam & flx & wl1 & i & _ & _ & _ & _ & _ & _ & Li & ->).
  exists df, (rebuild (compress (ne_scalar i 0%float)) i). simpl.
  split; [reflexivity|]. split; [reflexivity|].
  unfold len in *. rewrite values_rebuild. split.
  - unfold ne_scalar.
    rewrite (compress_map_self (fun x => negb (x =? 0)%float)).
    eapply Forall_impl; [|apply Forall_filter_true].
    simpl. intros x Hx. apply negb_true_iff. exact Hx.
  - rewrite <- Li. apply length_compress_le.
Qed.

(** X15: when the table has no ivar column, a successful construction keeps
    every row or none: the estimated ivar is one number v for all pixels, so
    either v is not zero and wavelength, flux and ivar have the table's
    number of rows, or v is zero and all three arrays are empty. *)
Theorem init_estimated_all_or_none (path : string) (z : float)
  (a_v : option float) (linearize : bool) (skiprows : nat)
  (separator : string) (to_rest : bool) (cfg cfg' : Config) (self : Spectrum)
  (df : DataFrame) :
  __init__ path z a_v linearize skiprows separator to_rest cfg = (Ok self, cfg') ->
  data self = Some df ->
  has_column df "ivar" = false ->
  exists v i',
    ivar self = Some i' /\
    (((v =? 0)%float = false /\
      len (wavelength self) = length (rows df) /\
      len (flux self) = length (rows df) /\
      values i' = repeat v (length (rows df)))
     \/
     ((v =? 0)%float = true /\
      values (wavelength self) = [] /\
      values (flux self) = [] /\
      values i' = [])).
Proof.
  intros H Hd Hc. apply init_result in H.
  destruct H as (df0 & lam & flx & wl1 & i & _ & _ & Hf & _ & H3 & L1 & Li & ->).
  simpl in Hd. injection Hd as ->.
  assert (Lf : length (values flx) = length (rows df)).
  { apply getitem_len in Hf. exact Hf. }
  match type of H3 with
  | _calculate_ivar ?s _ = _ =>
      rewrite (@calculate_ivar_estimate ext s cfg df eq_refl Hc) in H3
        by (unfold len; simpl; destruct to_rest; rewrite ?length_map;
            congruence)
  end.
  injection H3 as <- _.
  match goal with |- context [np_full ?n ?x] => set (v := x); set (k := n) end.
  assert (Hk : k = length (rows df)).
  { unfold k, len. simpl. destruct to_rest; rewrite ?length_map; congruence. }
  exists v, (rebuild (compress (ne_scalar (np_full k v) 0%float)) (np_full k v)).
  split; [reflexivity|]. simpl.
  unfold ne_scalar. rewrite values_np_full, map_repeat.
  destruct (v =? 0)%float; simpl.
  - right. rewrite !compress_repeat_false. repeat split; reflexivity.
  - left. split; [reflexivity|]. unfold len. simpl.
    rewrite !compress_repeat_true
      by (rewrite ?repeat_length; destruct to_rest; rewrite ?length_map;
          congruence).
    rewrite Hk.
    repeat split; try reflexivity;
      destruct to_rest; rewrite ?length_map; congruence.
Qed.

(** X16: a table that lacks the lambda column or the flux column stops the
    constructor with a KeyError, before any stage runs and with the
    configuration untouched. *)
Theorem init_missing_column (path : string) (z : float) (a_v : option float)
  (linearize : bool) (skiprows : nat) (separator : string) (to_rest : bool)
  (cfg : Config) (df : DataFrame) :
  read_data path skiprows separator = Ok (Some df) ->
  has_column df "lambda" = false \/ has_column df "flux" = false ->
  __init__ path z a_v linearize skiprows separator to_rest cfg
    = (Raise KeyError, cfg).
Proof.
  intros Hr Hm. unfold __init__, load. rewrite Hr. simpl.
  destruct (has_column df "lambda") eqn:Hl.
  - destruct Hm as [Hm | Hm]; [discriminate|].
    destruct (has_column_getitem df "lambda" Hl) as (j & _ & ->). simpl.
    rewrite (getitem_missing df "flux" Hm). reflexivity.
  - rewrite (getitem_missing df "lambda" Hl). reflexivity.
Qed.



(** X19: no Spectrum is ever constructed with an extinction magnitude:
    whenever the constructor returns an object, the a_v_extinction argument
    was None (with a magnitude the extinction stage raises on the ndarray
    wavelength), and the object records None. *)
Theorem init_never_keeps_extinction (path : string) (z : float)
  (a_v : option float) (linearize : bool) (skiprows : nat)
  (separator : string) (to_rest : bool) (cfg cfg' : Config) (self : Spectrum) :
  __init__ path z a_v linearize skiprows separator to_rest cfg = (Ok self, cfg') ->
  a_v = None /\ a_v_extinction self = None.
Proof.
  intros H. destruct a_v as [a|].
  - destruct (init_with_extinction_never_returns path z a linearize skiprows
                separator to_rest cfg) as [e E].
    rewrite E in H. discriminate.
  - split; [reflexivity|]. apply init_result in H.
    destruct H as (? & ? & ? & ? & ? & _ & _ & _ & _ & _ & _ & _ & ->).
    reflexivity.
Qed.

End Construction.

(** * The further properties on the sample tables *)

Lemma trim_data_keeps_interval_witness :
  inside (TRIM_INTERVALS plate_config)
    (values (wavelength plate_with_ivar)) = [1; 2; 3; 4] /\
  exists self' iv',
    _trim_data plate_with_ivar plate_config = Ok self' /\
    ivar self' = Some iv' /\
    values (wavelength self') = [4001; 4002; 4003; 4004]%float /\
    values (flux self') = [11; 12; 13; 14]%float /\
    values iv' = [2; 0; 4; 4]%float.
Proof.
  split; [reflexivity|].
  exact (proj2 (proj2 (@trim_data_keeps_interval plate_with_ivar
                         plate_config (Series [2; 2; 0; 4; 4; 0; 8]%float)
                         eq_refl eq_refl eq_refl))).
Defined.

Lemma trim_data_idempotent_witness :
  _trim_data plate_with_ivar plate_config = Ok plate_trimmed /\
  _trim_data plate_trimmed plate_config = Ok plate_trimmed.
Proof.
  split; [reflexivity|].
  exact (@trim_data_idempotent plate_with_ivar plate_trimmed plate_config
           eq_refl).
Defined.

Lemma mask_dead_pixels_idempotent_witness :
  _mask_dead_pixels plate_with_ivar = Ok plate_result /\
  _mask_dead_pixels plate_result = Ok plate_result.
Proof.
  split; [reflexivity|].
  exact (@mask_dead_pixels_idempotent plate_with_ivar plate_result eq_refl).
Defined.

Lemma mask_trim_commute_witness :
  bind (_mask_dead_pixels plate_with_ivar)
       (fun s => _trim_data s plate_config)
    = Ok (held "examples/plate.fits" plate_frame
            [4001; 4003; 4004]%float [11; 13; 14]%float
            0%float None true true (Some (Series [2; 4; 4]%float))) /\
  bind (_mask_dead_pixels plate_with_ivar)
       (fun s => _trim_data s plate_config)
    = bind (_trim_data plate_with_ivar plate_config) _mask_dead_pixels.
Proof.
  split; [reflexivity|].
  exact (@mask_trim_commute plate_with_ivar plate_config
           (Series [2; 2; 0; 4; 4; 0; 8]%float) eq_refl eq_refl eq_refl).
Defined.

Lemma mask_dead_pixels_outcome_witness :
  _mask_dead_pixels plate_state = Raise AttributeError /\
  _mask_dead_pixels plate_short_ivar = Raise IndexError.
Proof.
  split.
  - exact (proj1 (proj2 (mask_dead_pixels_outcome plate_state)) eq_refl).
  - exact (proj2 (proj2 (mask_dead_pixels_outcome plate_short_ivar))
             (Series [2; 2; 0; 4; 4; 0]%float) eq_refl
             (or_introl (fun E : 7 = 6 => Nat.neq_succ_diag_l 6 E))).
Defined.

Lemma trim_data_outcome_witness :
  _trim_data plate_state plate_config = Raise AttributeError /\
  _trim_data plate_short_ivar plate_config = Raise IndexError.
Proof.
  split.
  - exact (proj1 (proj2 (proj2 (trim_data_outcome plate_state plate_config)))
             eq_refl eq_refl).
  - exact (proj2 (proj2 (proj2 (trim_data_outcome plate_short_ivar
                                  plate_config)))
             (Series [2; 2; 0; 4; 4; 0]%float) eq_refl eq_refl
             (fun E : 6 = 7 => Nat.neq_succ_diag_r 6 E)).
Defined.

Lemma read_txt_outcome_witness :
  @read_txt sample_externals "examples/sample.txt" 2 tab = Ok sample_frame /\
  @read_txt sample_externals "examples/plate.fits" 2 tab = Raise ValueError.
Proof.
  split.
  - exact (proj1 (proj2 (proj2 (@read_txt_outcome sample_externals
                                  "examples/sample.txt" 2 tab))
                    (two_columns [1; 2; 3; 4; 5]%float [1; 2; 1; 2; 3]%float)
                    eq_refl eq_refl)).
  - exact (proj1 (proj2 (@read_txt_outcome sample_externals
                           "examples/plate.fits" 2 tab))
             (mkDataFrame ["LAMBDA"; "FLUX"; "IVAR"]%string (rows plate_frame))
             eq_refl
             (fun E : 3 = 2 => Nat.neq_succ_diag_l 2 E)).
Defined.

Lemma read_fits_labels_witness :
  exists df',
    @read_fits fluxless_externals "examples/fluxless.fits" = Ok df' /\
    columns df' = ["lambda"; "ivar"]%string /\
    has_column df' "loglam" = false.
Proof.
  destruct (proj2 (@read_fits_labels fluxless_externals
                     "examples/fluxless.fits")
              (mkDataFrame ["LOGLAM"; "IVAR"]%string
                 [ [3; 2]%float; [3; 2]%float ])
              eq_refl)
    as (df' & H & _ & Hc & Hn & _).
  exists df'. repeat split; assumption.
Defined.

Lemma stem_base_name_witness :
  stem "examples/sample.txt" = "sample"%string /\
  stem "archive.v2/plate.fits.gz" = "plate"%string.
Proof.
  split.
  - exact (proj1 (proj2 stem_base_name "examples"%string "sample"%string
                    "txt"%string eq_refl eq_refl eq_refl)).
  - exact (proj1 (proj2 stem_base_name "archive.v2"%string "plate"%string
                    "fits.gz"%string eq_refl eq_refl eq_refl)).
Defined.

Lemma linearize_wavelength_empty_witness :
  @read_data empty_externals "examples/empty.fits" 2 tab
    = Ok (Some (mkDataFrame ["lambda"; "flux"]%string [])) /\
  @__init__ empty_externals "examples/empty.fits" 0%float None true 2 tab true
     wide_config = (Raise ValueError, wide_config).
Proof.
  split; [reflexivity|].
  exact (proj2 (@linearize_wavelength_empty empty_externals)
           "examples/empty.fits"%string 0%float None 2 tab true wide_config
           (mkDataFrame ["lambda"; "flux"]%string [])
           eq_refl eq_refl eq_refl eq_refl).
Defined.

Lemma linearize_wavelength_nan_witness :
  @_linearize_wavelength sample_externals nan_state = Ok nan_state.
Proof.
  apply (@linearize_wavelength_nan sample_externals nan_state).
  apply Exists_cons_tl. apply Exists_cons_hd. reflexivity.
Defined.

Lemma log_labels_distinct : NoDup (columns log_frame).
Proof.
  repeat constructor; simpl; intuition discriminate.
Qed.

Lemma init_returns_witness :
  @__init__ sample_externals "examples/log.txt" 3%float None true 2 tab false
     once_rescaled = (Ok log_observed_second, twice_rescaled) /\
  values (wavelength log_observed_second) =
    take_at (alive [4; 4; 4]%float) [10; 100; 1000]%float /\
  values (flux log_observed_second) =
    take_at (alive [4; 4; 4]%float) [1; 2; 4]%float.
Proof.
  split; [reflexivity|].
  destruct (@init_returns sample_externals "examples/log.txt" 3%float None
              true 2 tab false once_rescaled twice_rescaled
              log_observed_second log_frame 2%float 40%float
              eq_refl log_labels_distinct eq_refl eq_refl)
    as (lam & flx & wl1 & wl3 & fl3 & i & i' & Hl & Hf & _ & Hon & E3 & F3
        & _ & Hest & _ & _ & _ & _ & _ & _ & _ & _ & Ew & Ef & _).
  injection Hl as <-. injection Hf as <-.
  destruct (Hon eq_refl) as (m & Hm & E1). injection Hm as <-.
  rewrite (Hest eq_refl), E3, F3, E1 in Ew, Ef.
  split; [exact Ew | exact Ef].
Defined.

Lemma init_leaves_no_dead_pixel_witness :
  exists df i',
    data plate_result = Some df /\ ivar plate_result = Some i' /\
    Forall (fun x => (x =? 0)%float = false) (values i') /\
    len i' <= length (rows df).
Proof.
  exact (@init_leaves_no_dead_pixel sample_externals "examples/plate.fits"
           0%float None true 2 tab true wide_config wide_config plate_result
           eq_refl).
Defined.

Lemma init_estimated_all_or_none_witness :
  exists v i',
    ivar log_observed_first = Some i' /\
    (((v =? 0)%float = false /\
      len (wavelength log_observed_first) = length (rows log_frame) /\
      len (flux log_observed_first) = length (rows log_frame) /\
      values i' = repeat v (length (rows log_frame)))
     \/
     ((v =? 0)%float = true /\
      values (wavelength log_observed_first) = [] /\
      values (flux log_observed_first) = [] /\
      values i' = [])).
Proof.
  exact (@init_estimated_all_or_none sample_externals "examples/log.txt"
           3%float None true 2 tab false wide_config once_rescaled
           log_observed_first log_frame eq_refl eq_refl eq_refl).
Defined.

Lemma init_missing_column_witness :
  @__init__ fluxless_externals "examples/fluxless.fits" 0%float None true 2 tab
     true wide_config = (Raise KeyError, wide_config).
Proof.
  exact (@init_missing_column fluxless_externals "examples/fluxless.fits"
           0%float None true 2 tab true wide_config
           (mkDataFrame ["lambda"; "ivar"]%string
              [ [3; 2]%float; [3; 2]%float ])
           eq_refl (or_intror eq_refl)).
Defined.


Lemma init_never_keeps_extinction_witness :
  @__init__ sample_externals "examples/plate.fits" 0%float None true 2 tab true
     wide_config = (Ok plate_result, wide_config) /\
  a_v_extinction plate_result = None.
Proof.
  split; [reflexivity|].
  exact (proj2 (@init_never_keeps_extinction sample_externals
                  "examples/plate.fits" 0%float None true 2 tab true
                  wide_config wide_config plate_result eq_refl)).
Defined.
